(** * roast_my_cv: the evaluation engine of [cv_processor.py]

    A shallow embedding of the scoring code of [CVProcessor]
    ([calculate_section_coverage], [calculate_issue_detection_metrics],
    [_detect_cv_issues], [evaluate_all_models]) and of the best-model
    selection of [process_new_cv.py], with the properties the
    specification states about them; then the text extraction of
    [cv_processor.py] and the previews and the masked key of the scripts,
    with further properties read off the code.

    Conventions of the embedding.
    - A Python [str] is a [string] whose characters are the code points
      U+0000..U+00FF; [lower], [split] and the class [\d] are Python's on
      that range.
    - A Python [dict] literal is an association list in insertion order.
    - A Python [set] of strings is a [gset string].
    - [int / int] (true division) is exact rational division on [Qc]; the
      [ZeroDivisionError] it raises on a zero divisor is explicit.  The
      code rounds every operation to a double ([Float64] below), so an
      F1 it holds may differ in the last bit from the rational here.
      Ties between the F1 of two rows are therefore not read off these
      rationals: the selection of the best row is stated over any column
      of numbers.
    - Exceptions are values of [exn], threaded by the [result] monad. *)

From Stdlib Require Import String Ascii List Arith ZArith QArith Qcanon Lia.
From Stdlib Require Import Floats.SpecFloat.
From stdpp Require Import base decidable option numbers list strings gmap.

Local Open Scope string_scope.
Local Open Scope list_scope.
Local Open Scope nat_scope.

#[local] Set Warnings "-clear-no-such-hyp".

(** ** Exceptions and the result monad *)

Inductive exn :=
| ZeroDivisionError
| KeyError
| ValueError.

Inductive result (A : Type) :=
| Ok (a : A)
| Raise (e : exn).

Arguments Ok {A} a.
Arguments Raise {A} e.

#[global] Instance result_ret : MRet result := fun A a => Ok a.
#[global] Instance result_bind : MBind result := fun A B f m =>
  match m with
  | Ok a => f a
  | Raise e => Raise e
  end.

(** ** Python text primitives *)

Module Py.

(** [str.lower] on one code point below U+0100: A-Z and the Latin-1
    capitals U+00C0..U+00DE (the sign U+00D7 apart) move up by 32. *)
Definition lower_char (c : ascii) : ascii :=
  let n := nat_of_ascii c in
  if ((65 <=? n) && (n <=? 90))
     || ((192 <=? n) && (n <=? 222) && negb (n =? 215))
  then ascii_of_nat (n + 32)
  else c.

Fixpoint lower (s : string) : string :=
  match s with
  | EmptyString => EmptyString
  | String c s' => String (lower_char c) (lower s')
  end.

(** [s.startswith(kw)] *)
Fixpoint startswith (kw s : string) : bool :=
  match kw, s with
  | EmptyString, _ => true
  | String a kw', String b s' => Ascii.eqb a b && startswith kw' s'
  | String _ _, EmptyString => false
  end.

(** [kw in s] on strings: [kw] occurs in [s] as a substring. *)
Fixpoint contains (kw s : string) : bool :=
  startswith kw s
  || match s with
     | EmptyString => false
     | String _ s' => contains kw s'
     end.

(** Whitespace for [str.split()] below U+0100. *)
Definition isspace (c : ascii) : bool :=
  let n := nat_of_ascii c in
  ((9 <=? n) && (n <=? 13)) || ((28 <=? n) && (n <=? 32))
  || (n =? 133) || (n =? 160).

(** [s.split()]: the maximal runs of non-whitespace, in order. *)
Fixpoint split_go (s word : string) : list string :=
  match s with
  | EmptyString =>
      match word with EmptyString => [] | _ => [word] end
  | String c s' =>
      if isspace c
      then match word with
           | EmptyString => split_go s' EmptyString
           | _ => word :: split_go s' EmptyString
           end
      else split_go s' (word +:+ String c EmptyString)
  end.

Definition split (s : string) : list string := split_go s EmptyString.

(** [any(p(x) for x in l)] *)
Definition any {A} (p : A -> bool) (l : list A) : bool := existsb p l.

(** [sum(1 for x in l if p(x))] *)
Definition count_if {A} (p : A -> bool) (l : list A) : nat :=
  length (List.filter p l).

(** [a / b] on numbers: the exact quotient, before the rounding to a
    double (for which see [Float64]). *)
Definition truediv (a b : Qc) : result Qc :=
  if decide (b = 0%Qc) then Raise ZeroDivisionError else Ok (a / b)%Qc.

(** [int] to number. *)
Definition num (n : nat) : Qc := Qc_of_Z (Z.of_nat n).

(** The class [\d] below U+0100. *)
Definition isdigit (c : ascii) : bool :=
  let n := nat_of_ascii c in (48 <=? n) && (n <=? 57).

(** A [dict] literal, in insertion order. *)
Definition dict (V : Type) : Type := list (string * V).

(** [d[k]] *)
Definition getitem {V} (d : dict V) (k : string) : result V :=
  match List.find (fun kv => String.eqb (fst kv) k) d with
  | Some kv => Ok (snd kv)
  | None => Raise KeyError
  end.

(** [d[k] = v]: the value is replaced in place, a new key goes last. *)
Fixpoint setitem {V} (d : dict V) (k : string) (v : V) : dict V :=
  match d with
  | [] => [(k, v)]
  | (k', v') :: d' =>
      if String.eqb k' k then (k', v) :: d' else (k', v') :: setitem d' k v
  end.

(** [set(l)] *)
Definition set (l : list string) : gset string := list_to_set l.

End Py.

(** ** Regular expressions, as far as [re.search] is used *)

Module Re.

Inductive regex :=
| Void
| Eps
| Chr (c : ascii)
| Class (p : ascii -> bool)
| Cat (r1 r2 : regex)
| Alt (r1 r2 : regex)
| Star (r : regex).

(** [r+] *)
Definition Plus (r : regex) : regex := Cat r (Star r).

(** A literal run of characters. *)
Fixpoint Lit (s : string) : regex :=
  match s with
  | EmptyString => Eps
  | String c s' => Cat (Chr c) (Lit s')
  end.

Fixpoint nullable (r : regex) : bool :=
  match r with
  | Void => false
  | Eps => true
  | Chr _ => false
  | Class _ => false
  | Cat r1 r2 => nullable r1 && nullable r2
  | Alt r1 r2 => nullable r1 || nullable r2
  | Star _ => true
  end.

Fixpoint deriv (c : ascii) (r : regex) : regex :=
  match r with
  | Void => Void
  | Eps => Void
  | Chr d => if Ascii.eqb c d then Eps else Void
  | Class p => if p c then Eps else Void
  | Cat r1 r2 =>
      if nullable r1
      then Alt (Cat (deriv c r1) r2) (deriv c r2)
      else Cat (deriv c r1) r2
  | Alt r1 r2 => Alt (deriv c r1) (deriv c r2)
  | Star r1 => Cat (deriv c r1) (Star r1)
  end.

(** [re.match(r, s)] is not [None]: some prefix of [s] matches. *)
Fixpoint match_prefix (r : regex) (s : string) : bool :=
  nullable r
  || match s with
     | EmptyString => false
     | String c s' => match_prefix (deriv c r) s'
     end.

(** [re.search(r, s)] is not [None]: a match starts somewhere in [s]. *)
Fixpoint search (r : regex) (s : string) : bool :=
  match_prefix r s
  || match s with
     | EmptyString => false
     | String _ s' => search r s'
     end.

End Re.

(** ** The class [CVProcessor] *)

Definition EXPECTED_CV_ELEMENTS : Py.dict (list string) :=
  [ ("career_objective",
      ["career objective"; "objective"; "summary"; "professional summary"]);
    ("skills", ["skills"; "technical skills"; "competencies"; "expertise"]);
    ("education", ["education"; "academic"; "degree"; "university"; "college"]);
    ("experience",
      ["experience"; "work history"; "employment"; "professional experience"]);
    ("contact", ["email"; "phone"; "address"; "contact"; "linkedin"]);
    ("achievements",
      ["achievement"; "award"; "accomplishment"; "certification"]);
    ("projects", ["project"; "portfolio"]) ].

(** The second keyword of [buzzwords] is, in the source file, the five
    letters of "clich" followed by the code points U+00C3 and U+00A9. *)
Definition cliche_keyword : string :=
  "clich" +:+ String (ascii_of_nat 195) (String (ascii_of_nat 169) EmptyString).

Definition COMMON_CV_ISSUES : Py.dict (list string) :=
  [ ("typos", ["typo"; "spelling"; "grammar"; "grammatical"]);
    ("vague_objective",
      ["vague"; "generic"; "unclear objective"; "bland objective"]);
    ("skill_organization",
      ["organize skills"; "categorize skills"; "skill structure"]);
    ("no_metrics", ["quantif"; "metric"; "number"; "measurable"; "achievement"]);
    ("buzzwords", ["buzzword"; cliche_keyword; "jargon"; "overused"]);
    ("formatting", ["format"; "layout"; "structure"; "consistency"]);
    ("length", ["too long"; "too short"; "concise"; "verbose"]);
    ("relevance", ["relevant"; "irrelevant"; "focus"]) ].

(** The pattern [\d+%|\d+x|increased|reduced|improved \d+]. *)
Definition metrics_pattern : Re.regex :=
  let digits := Re.Plus (Re.Class Py.isdigit) in
  Re.Alt (Re.Cat digits (Re.Chr "%"))
    (Re.Alt (Re.Cat digits (Re.Chr "x"))
       (Re.Alt (Re.Lit "increased")
          (Re.Alt (Re.Lit "reduced")
             (Re.Cat (Re.Lit "improved ") digits)))).

(** [issues.append(x)] under a condition. *)
Definition append_if (b : bool) (x : string) (issues : list string)
  : list string :=
  if b then issues ++ [x] else issues.

(** [CVProcessor._detect_cv_issues] (cv_processor.py, lines 362-405). *)
Definition _detect_cv_issues (cv_text : string) : result (list string) :=
  let issues := [] in
  let cv_lower := Py.lower cv_text in
  let issues :=
    if Py.any (fun word => Py.contains word cv_lower)
         ["seeking"; "looking for"; "opportunity"]
    then append_if
           (negb (Py.any (fun word => Py.contains word cv_lower)
                    ["specific"; "specialize"; "expert in"]))
           "vague_objective" issues
    else issues in
  let issues :=
    append_if (negb (Re.search metrics_pattern cv_text)) "no_metrics" issues in
  let buzzwords :=
    ["synergy"; "innovative"; "dynamic"; "results-driven"; "team player";
     "hard worker"] in
  let issues :=
    append_if (2 <=? Py.count_if (fun bw => Py.contains bw cv_lower) buzzwords)
      "buzzwords" issues in
  let word_count := length (Py.split cv_text) in
  let issues :=
    if word_count <? 200 then issues ++ ["length"]
    else if 1000 <? word_count then issues ++ ["length"]
    else issues in
  skills_kw ← Py.getitem EXPECTED_CV_ELEMENTS "skills";
  let has_skills := Py.any (fun kw => Py.contains kw cv_lower) skills_kw in
  experience_kw ← Py.getitem EXPECTED_CV_ELEMENTS "experience";
  let has_experience :=
    Py.any (fun kw => Py.contains kw cv_lower) experience_kw in
  let issues :=
    append_if (negb has_skills || negb has_experience) "formatting" issues in
  mret issues.

(** [any(kw in text for kw in keywords)] *)
Definition mentions (text : string) (keywords : list string) : bool :=
  Py.any (fun kw => Py.contains kw text) keywords.

(** The loop [for section, keywords in table.items(): d[section] = ...]. *)
Definition scan_sections (table : Py.dict (list string)) (text : string)
  : Py.dict bool :=
  fold_left (fun d '(section, keywords) =>
               Py.setitem d section (mentions text keywords))
    table [].

Module Coverage.
Record t := {
  total_sections_in_cv : nat;
  sections_addressed_in_critique : nat;
  coverage_rate : Qc;
  sections_present : Py.dict bool;
  sections_covered : Py.dict bool
}.
End Coverage.

(** [sum(1 for section in present if present[section] and covered[section])],
    over the keys of [present]. *)
Fixpoint count_covered (keys : list string) (present covered : Py.dict bool)
  : result nat :=
  match keys with
  | [] => mret 0
  | section :: keys' =>
      p ← Py.getitem present section;
      c ← (if p then Py.getitem covered section else mret false);
      n ← count_covered keys' present covered;
      mret (Nat.b2n (p && c) + n)
  end.

(** [CVProcessor.calculate_section_coverage] (cv_processor.py, lines
    270-309). *)
Definition calculate_section_coverage (cv_text critique : string)
  : result Coverage.t :=
  let cv_lower := Py.lower cv_text in
  let critique_lower := Py.lower critique in
  let sections_present := scan_sections EXPECTED_CV_ELEMENTS cv_lower in
  let sections_covered := scan_sections EXPECTED_CV_ELEMENTS critique_lower in
  let total_sections := sum_list (Nat.b2n <$> sections_present.*2) in
  covered_sections ←
    count_covered sections_present.*1 sections_present sections_covered;
  coverage_rate ←
    (if 0 <? total_sections
     then Py.truediv (Py.num covered_sections) (Py.num total_sections)
     else mret 0%Qc);
  mret {| Coverage.total_sections_in_cv := total_sections;
          Coverage.sections_addressed_in_critique := covered_sections;
          Coverage.coverage_rate := coverage_rate;
          Coverage.sections_present := sections_present;
          Coverage.sections_covered := sections_covered |}.

Module Detection.
(** [missed_issues] and [extra_mentions] are lists made from a set, in
    an order Python does not fix: they are kept as the sets. *)
Record t := {
  precision : Qc;
  recall : Qc;
  f1_score : Qc;
  true_positives : nat;
  false_positives : nat;
  false_negatives : nat;
  ground_truth_issues : list string;
  detected_issues : list string;
  missed_issues : gset string;
  extra_mentions : gset string
}.
End Detection.

(** The loop that collects the categories a critique mentions. *)
Definition detect_in_critique (critique_lower : string) : list string :=
  fold_left (fun detected '(issue_category, keywords) =>
               append_if (mentions critique_lower keywords)
                 issue_category detected)
    COMMON_CV_ISSUES [].

(** [CVProcessor.calculate_issue_detection_metrics] (cv_processor.py, lines
    311-360); [None] stands for the default of [ground_truth_issues]. *)
Definition calculate_issue_detection_metrics (cv_text critique : string)
    (ground_truth_issues : option (list string)) : result Detection.t :=
  let critique_lower := Py.lower critique in
  let cv_lower := Py.lower cv_text in
  ground_truth_issues ←
    match ground_truth_issues with
    | None => _detect_cv_issues cv_text
    | Some issues => mret issues
    end;
  let detected_issues := detect_in_critique critique_lower in
  let true_positives :=
    size (Py.set ground_truth_issues ∩ Py.set detected_issues) in
  let false_positives :=
    size (Py.set detected_issues ∖ Py.set ground_truth_issues) in
  let false_negatives :=
    size (Py.set ground_truth_issues ∖ Py.set detected_issues) in
  precision ←
    (if 0 <? true_positives + false_positives
     then Py.truediv (Py.num true_positives)
            (Py.num (true_positives + false_positives))
     else mret 0%Qc);
  recall ←
    (if 0 <? true_positives + false_negatives
     then Py.truediv (Py.num true_positives)
            (Py.num (true_positives + false_negatives))
     else mret 0%Qc);
  f1_score ←
    (if decide (0 < precision + recall)%Qc
     then Py.truediv (2 * (precision * recall))%Qc (precision + recall)%Qc
     else mret 0%Qc);
  mret {| Detection.precision := precision;
          Detection.recall := recall;
          Detection.f1_score := f1_score;
          Detection.true_positives := true_positives;
          Detection.false_positives := false_positives;
          Detection.false_negatives := false_negatives;
          Detection.ground_truth_issues := ground_truth_issues;
          Detection.detected_issues := detected_issues;
          Detection.missed_issues :=
            Py.set ground_truth_issues ∖ Py.set detected_issues;
          Detection.extra_mentions :=
            Py.set detected_issues ∖ Py.set ground_truth_issues |}.

Module EvalRow.
(** One row of the table [evaluate_all_models] returns. *)
Record t := {
  model : string;
  coverage_rate : Qc;
  sections_addressed : nat;
  precision : Qc;
  recall : Qc;
  f1_score : Qc;
  true_positives : nat;
  false_positives : nat;
  false_negatives : nat;
  critique_length : nat
}.
End EvalRow.

(** The body of the loop of [evaluate_all_models] (cv_processor.py, lines
    422-443). *)
Definition evaluate_one (cv_text : string)
    (ground_truth_issues : option (list string))
    (item : string * string) : result EvalRow.t :=
  let '(model_name, critique) := item in
  coverage ← calculate_section_coverage cv_text critique;
  detection ←
    calculate_issue_detection_metrics cv_text critique ground_truth_issues;
  mret {| EvalRow.model := model_name;
          EvalRow.coverage_rate := Coverage.coverage_rate coverage;
          EvalRow.sections_addressed :=
            Coverage.sections_addressed_in_critique coverage;
          EvalRow.precision := Detection.precision detection;
          EvalRow.recall := Detection.recall detection;
          EvalRow.f1_score := Detection.f1_score detection;
          EvalRow.true_positives := Detection.true_positives detection;
          EvalRow.false_positives := Detection.false_positives detection;
          EvalRow.false_negatives := Detection.false_negatives detection;
          EvalRow.critique_length := length (Py.split critique) |}.

(** [CVProcessor.evaluate_all_models] (cv_processor.py, lines 407-445): the
    loop over [critiques.items()], one row appended per critique. *)
Fixpoint evaluate_all_models (cv_text : string)
    (critiques : Py.dict string)
    (ground_truth_issues : option (list string)) : result (list EvalRow.t) :=
  match critiques with
  | [] => mret []
  | item :: critiques' =>
      result ← evaluate_one cv_text ground_truth_issues item;
      results ← evaluate_all_models cv_text critiques' ground_truth_issues;
      mret (result :: results)
  end.

(** ** Selection of the best model in [process_new_cv.py] *)

Module Pandas.

(** [Series.idxmax()] over the default index 0, 1, ...: the position of
    the first occurrence of the maximum; [ValueError] on an empty
    column. *)
Fixpoint idxmax_go (best_i : nat) (best : Qc) (i : nat) (col : list Qc)
  : nat :=
  match col with
  | [] => best_i
  | x :: col' =>
      if decide (best < x)%Qc
      then idxmax_go i x (S i) col'
      else idxmax_go best_i best (S i) col'
  end.

Definition idxmax (col : list Qc) : result nat :=
  match col with
  | [] => Raise ValueError
  | x :: col' => Ok (idxmax_go 0 x 1 col')
  end.

(** [df.loc[i]] over the default index. *)
Definition loc (df : list EvalRow.t) (i : nat) : result EvalRow.t :=
  match df !! i with
  | Some row => Ok row
  | None => Raise KeyError
  end.

(** [df[name]] on [pd.DataFrame(results)]: the frame has the columns of
    its records, so the frame of an empty list has none and the lookup
    raises [KeyError]. *)
Definition column {A} (field : EvalRow.t -> A) (df : list EvalRow.t)
  : result (list A) :=
  match df with
  | [] => Raise KeyError
  | _ :: _ => Ok (field <$> df)
  end.

End Pandas.

(** [df_results.loc[df_results['f1_score'].idxmax()]] (process_new_cv.py,
    line 148).  The F1 column holds the numbers the scorer stored; they
    are compared by value, as doubles are. *)
Definition best_model_row (df_results : list EvalRow.t) : result EvalRow.t :=
  f1_column ← Pandas.column EvalRow.f1_score df_results;
  i ← Pandas.idxmax f1_column;
  Pandas.loc df_results i.

(** ** The documents and critiques of the examples *)

(** The sample document of [main] in [cv_processor.py]. *)
Definition sample_cv : string := "
        CAREER OBJECTIVE:
        Seeking a challenging position in data science.

        SKILLS:
        Python, Machine Learning, Data Analysis

        EDUCATION:
        University of Example - B.Sc. Computer Science (2020)

        WORK EXPERIENCE:
        Data Analyst at Company XYZ (2020-Present)
        - Analyzed data
        - Created reports
        - Worked with team
        ".

(** The mock critiques of [main]. *)
Definition mock_critiques : Py.dict string :=
  [ ("gentle", "Your CV shows good foundation. Consider adding metrics to quantify achievements.");
    ("medium", "Missing quantifiable results. Experience section is too vague. Skills need organization.");
    ("brutal", "Generic buzzwords everywhere. 'Analyzed data' - what data? How? This needs metrics.") ].

(** [critiques['medium']] *)
Definition critique_medium : string :=
  "Missing quantifiable results. Experience section is too vague. Skills need organization.".

(** ["a " * n]: a document of [n] words. *)
Fixpoint repeat_words (n : nat) : string :=
  match n with
  | 0 => EmptyString
  | S n' => "a " +:+ repeat_words n'
  end.

(** The identifiers of the issue taxonomy. *)
Definition issue_taxonomy : list string := COMMON_CV_ISSUES.*1.

(** ** Slices and previews in the scripts *)

Module Slice.

(** [s[:n]] *)
Fixpoint upto (n : nat) (s : string) : string :=
  match n, s with
  | S n', String c s' => String c (upto n' s')
  | _, _ => EmptyString
  end.

(** [s[n:]] *)
Fixpoint from (n : nat) (s : string) : string :=
  match n, s with
  | S n', String _ s' => from n' s'
  | _, _ => s
  end.

(** [s[-n:]] for [n > 0]: the slice starts at [max(len(s) - n, 0)]. *)
Definition last (n : nat) (s : string) : string :=
  from (String.length s - n) s.

End Slice.

(** [value[:50] + "..." if len(value) > 50 else value]
    (process_new_cv.py, line 80). *)
Definition preview (value : string) : string :=
  if 50 <? String.length value then Slice.upto 50 value +:+ "..." else value.

(** [critique[:200]] (process_new_cv.py, line 139). *)
Definition critique_preview (critique : string) : string :=
  Slice.upto 200 critique.

(** [GEMINI_API_KEY[:10] + "..." + GEMINI_API_KEY[-5:]]
    (check_setup.py, line 32; test_api.py, line 16). *)
Definition masked_key (GEMINI_API_KEY : string) : string :=
  Slice.upto 10 GEMINI_API_KEY +:+ "..." +:+ Slice.last 5 GEMINI_API_KEY.

(** ** Text extraction in [cv_processor.py]

    The PDF libraries are outside the repository: what a library does on
    a file is given as an [opened] value, the pages it yields with the
    outcome of [extract_text()] on each, or the exception it raises.
    The [print] of the handler is taken to return. *)

Module Extract.

(** What [except Exception] makes of an exception: it catches an
    [Exception], and lets through a [BaseException] that is none
    ([KeyboardInterrupt], [SystemExit], ...). *)
Inductive raised :=
| AnException
| NotAnException.

Inductive outcome (A : Type) :=
| Returned (a : A)
| Raised (e : raised).

Arguments Returned {A} a.
Arguments Raised {A} e.

(** One page: [extract_text()] returns a string or [None], or raises. *)
Definition page : Type := outcome (option string).

(** One library on the file: it opens it and yields pages, or raises. *)
Definition opened : Type := outcome (list page).

(** [if page_text:] *)
Definition truthy (page_text : option string) : bool :=
  match page_text with
  | Some (String _ _) => true
  | _ => false
  end.

(** [sep.join(parts)] *)
Fixpoint join (sep : string) (parts : list string) : string :=
  match parts with
  | [] => EmptyString
  | [part] => part
  | part :: parts' => part +:+ sep +:+ join sep parts'
  end.

(** The loop over the pages: [text.append(page_text)] for each page whose
    text is not empty; an exception of a page ends it. *)
Fixpoint collect (pages : list page) (text : list string)
  : outcome (list string) :=
  match pages with
  | [] => Returned text
  | Raised e :: _ => Raised e
  | Returned page_text :: pages' =>
      collect pages'
        (if truthy page_text
         then text ++ [default EmptyString page_text]
         else text)
  end.

(** The two line feeds between pages. *)
Definition page_separator : string :=
  String (ascii_of_nat 10) (String (ascii_of_nat 10) EmptyString).

(** [_extract_with_pdfplumber] and [_extract_with_pypdf2]
    (cv_processor.py, lines 107-132), on what the library does. *)
Definition _extract_with (lib : opened) : outcome string :=
  match lib with
  | Raised e => Raised e
  | Returned pages =>
      match collect pages [] with
      | Raised e => Raised e
      | Returned text => Returned (join page_separator text)
      end
  end.

(** [s.lstrip()] *)
Fixpoint lstrip (s : string) : string :=
  match s with
  | EmptyString => EmptyString
  | String c s' => if Py.isspace c then lstrip s' else s
  end.





End Extract.

(** ** Auxiliary notions used to state the properties *)

(** The dict that holds [h] of each value of [table] under the same key. *)
Definition dict_map {V W} (h : V -> W) (table : Py.dict V) : Py.dict W :=
  (λ kv, (kv.1, h kv.2)) <$> table.

(** The ground truth the scorer works with: the caller's list, or the
    detector's when none is supplied. *)
Definition effective_ground_truth (cv_text : string)
    (ground_truth_issues : option (list string)) : result (list string) :=
  match ground_truth_issues with
  | None => _detect_cv_issues cv_text
  | Some issues => Ok issues
  end.

(** [a / b if b > 0 else 0] on counts. *)
Definition ratio_or_0 (a b : nat) : Qc :=
  if 0 <? b then (Py.num a / Py.num b)%Qc else 0%Qc.

(** [2 * (p * r) / (p + r) if (p + r) > 0 else 0] *)
Definition harmonic_or_0 (p r : Qc) : Qc :=
  if decide (0 < p + r)%Qc then (2 * (p * r) / (p + r))%Qc else 0%Qc.

(** Row [row] is the evaluation of the critique [item] of the batch. *)
Definition row_of (cv_text : string)
    (ground_truth_issues : option (list string))
    (item : string * string) (row : EvalRow.t) : Prop :=
  EvalRow.model row = item.1
  ∧ ∃ d, calculate_issue_detection_metrics cv_text item.2
           ground_truth_issues = Ok d
      ∧ EvalRow.precision row = Detection.precision d
      ∧ EvalRow.recall row = Detection.recall d
      ∧ EvalRow.f1_score row = Detection.f1_score d.

(** The words a pattern denotes. *)
Inductive Matches : Re.regex -> string -> Prop :=
| MEps : Matches Re.Eps ""
| MChr c : Matches (Re.Chr c) (String c "")
| MClass (p : ascii -> bool) c :
    p c = true -> Matches (Re.Class p) (String c "")
| MCat r1 r2 s1 s2 :
    Matches r1 s1 -> Matches r2 s2 -> Matches (Re.Cat r1 r2) (s1 +:+ s2)
| MAltL r1 r2 s : Matches r1 s -> Matches (Re.Alt r1 r2) s
| MAltR r1 r2 s : Matches r2 s -> Matches (Re.Alt r1 r2) s
| MStarNil r : Matches (Re.Star r) ""
| MStarApp r s1 s2 :
    Matches r s1 -> Matches (Re.Star r) s2 -> Matches (Re.Star r) (s1 +:+ s2).

(** [w] occurs in [text] with a property [P]. *)
Definition occurs (P : string -> Prop) (text : string) : Prop :=
  ∃ pre w rest, text = pre +:+ w +:+ rest ∧ P w.

(** ** Metric phrases: what the pattern of the detector matches *)

Fixpoint all_digits (s : string) : bool :=
  match s with
  | EmptyString => true
  | String c s' => Py.isdigit c && all_digits s'
  end.

(** A number: one digit or more. *)
Definition is_number (s : string) : Prop := s ≠ "" ∧ all_digits s = true.

(** A percentage: a number and the sign [%]. *)
Definition is_percentage (w : string) : Prop :=
  ∃ n, is_number n ∧ w = n +:+ "%".

(** A multiplier "Nx": a number and the letter [x]. *)
Definition is_multiplier (w : string) : Prop :=
  ∃ n, is_number n ∧ w = n +:+ "x".

(** The last three alternatives of the pattern: "increased" alone,
    "reduced" alone, and "improved", one space and a number. *)
Definition regex_verb_phrase (w : string) : Prop :=
  w = "increased" ∨ w = "reduced" ∨ ∃ n, is_number n ∧ w = "improved " +:+ n.

Definition regex_metric_phrase (w : string) : Prop :=
  is_percentage w ∨ is_multiplier w ∨ regex_verb_phrase w.

(** The text contains a phrase the pattern matches. *)
Definition contains_regex_metric_phrase (text : string) : Prop :=
  occurs regex_metric_phrase text.

(** ** Metric patterns, in the words of the specification *)

(** A quantified-improvement verb followed by a number: one of
    "increased", "reduced", "improved", then one space and a number. *)
Definition spec_quantified_improvement (w : string) : Prop :=
  ∃ verb n, verb ∈ ["increased"; "reduced"; "improved"]
    ∧ is_number n ∧ w = verb +:+ " " +:+ n.

(** A percentage, a multiplier, or a verb followed by a number. *)
Definition spec_metric_pattern (w : string) : Prop :=
  is_percentage w ∨ is_multiplier w ∨ spec_quantified_improvement w.

Definition spec_contains_metric_pattern (text : string) : Prop :=
  occurs spec_metric_pattern text.

(** Some digit occurs in [s]. *)
Fixpoint has_digit (s : string) : bool :=
  match s with
  | EmptyString => false
  | String c s' => Py.isdigit c || has_digit s'
  end.

(** ** The doubles of the scorer

    A Python [float] is an IEEE 754 binary64 number.  [Py.truediv] gives
    the exact quotient; the operations here give the double the code
    holds, rounded to nearest even after every operation.  They tell, on
    given counts, where the two part in the last bit of an F1. *)

Module Float64.

Definition prec : Z := 53.
Definition emax : Z := 1024.

(** [float(n)] for a count [n]. *)
Definition of_int (n : nat) : spec_float :=
  match Z.of_nat n with
  | Z0 => S754_zero false
  | z => binary_normalize prec emax z 0 false
  end.

Definition add : spec_float -> spec_float -> spec_float := SFadd prec emax.
Definition mul : spec_float -> spec_float -> spec_float := SFmul prec emax.
Definition div : spec_float -> spec_float -> spec_float := SFdiv prec emax.

(** Lines 345-347 of cv_processor.py on doubles; the [int] 0 of an
    [else] branch is the double 0.0 in what follows it. *)
Definition precision (true_positives false_positives : nat) : spec_float :=
  if 0 <? true_positives + false_positives
  then div (of_int true_positives) (of_int (true_positives + false_positives))
  else of_int 0.

Definition recall (true_positives false_negatives : nat) : spec_float :=
  if 0 <? true_positives + false_negatives
  then div (of_int true_positives) (of_int (true_positives + false_negatives))
  else of_int 0.

Definition f1_score (true_positives false_positives false_negatives : nat)
  : spec_float :=
  let precision := precision true_positives false_positives in
  let recall := recall true_positives false_negatives in
  if SFltb (of_int 0) (add precision recall)
  then div (mul (of_int 2) (mul precision recall)) (add precision recall)
  else of_int 0.

(** The rational a finite double is. *)
Definition value (x : spec_float) : Qc :=
  match x with
  | S754_finite s m e =>
      Q2Qc ((if s then -1 else 1) * inject_Z (Zpos m) * Qpower 2 e)
  | _ => 0%Qc
  end.

End Float64.

(** A row with a given label and F1, the other columns 0. *)
Definition row_with (model : string) (f1_score : Qc) : EvalRow.t :=
  {| EvalRow.model := model;
     EvalRow.coverage_rate := 0%Qc;
     EvalRow.sections_addressed := 0;
     EvalRow.precision := 0%Qc;
     EvalRow.recall := 0%Qc;
     EvalRow.f1_score := f1_score;
     EvalRow.true_positives := 0;
     EvalRow.false_positives := 0;
     EvalRow.false_negatives := 0;
     EvalRow.critique_length := 0 |}.

(** Two rows with the F1 the code holds for the counts (TP, FP, FN) =
    (3, 2, 1) and (2, 0, 2): the neighbouring doubles 0.6666666666666665
    and 0.6666666666666666, both 2/3 before rounding. *)
Definition neighbouring_doubles_table : list EvalRow.t :=
  [ row_with "first" (Float64.value (Float64.f1_score 3 2 1));
    row_with "second" (Float64.value (Float64.f1_score 2 0 2)) ].

(** ** Basic facts: the monad, numbers, dicts *)

Lemma Ok_inj {A} (a b : A) : Ok a = Ok b -> a = b.
Proof. congruence. Qed.

Lemma bind_Ok {A B} (f : A -> result B) (m : result A) (a : A) :
  m = Ok a -> m ≫= f = f a.
Proof. by intros ->. Qed.

Lemma bind_Ok_inv {A B} (f : A -> result B) (m : result A) (b : B) :
  m ≫= f = Ok b -> ∃ a, m = Ok a ∧ f a = Ok b.
Proof. destruct m as [a|e]; [eauto | discriminate]. Qed.

Lemma num_0_iff (n : nat) : Py.num n = 0%Qc ↔ n = 0.
Proof.
  unfold Py.num. rewrite <- Z2Qc_inj_0, Z2Qc_inj_iff. lia.
Qed.

Lemma num_pos (n : nat) : 0 < n -> (0 < Py.num n)%Qc.
Proof.
  intros Hn. unfold Py.num. rewrite <- Z2Qc_inj_0.
  apply (proj1 (Z2Qc_inj_lt 0 (Z.of_nat n))). lia.
Qed.

Lemma truediv_Ok (a b : Qc) : b ≠ 0%Qc -> Py.truediv a b = Ok (a / b)%Qc.
Proof. intros Hb. unfold Py.truediv. by destruct (decide (b = 0%Qc)). Qed.

Lemma truediv_num_Ok (a : Qc) (n : nat) :
  0 < n -> Py.truediv a (Py.num n) = Ok (a / Py.num n)%Qc.
Proof. intros Hn. apply truediv_Ok. rewrite num_0_iff. lia. Qed.

Lemma Qc_div_self (q : Qc) : q ≠ 0%Qc -> (q / q)%Qc = 1%Qc.
Proof. intros Hq. unfold Qcdiv. by apply Qcmult_inv_r. Qed.

Lemma elem_of_append_if (b : bool) (x y : string) (l : list string) :
  x ∈ append_if b y l ↔ x ∈ l ∨ (x = y ∧ b = true).
Proof.
  unfold append_if. destruct b.
  - rewrite elem_of_app, list_elem_of_singleton. tauto.
  - intuition discriminate.
Qed.

(** ** [_detect_cv_issues] returns, and what it returns *)

Lemma getitem_skills :
  Py.getitem EXPECTED_CV_ELEMENTS "skills"
  = Ok ["skills"; "technical skills"; "competencies"; "expertise"].
Proof. reflexivity. Qed.

Lemma getitem_experience :
  Py.getitem EXPECTED_CV_ELEMENTS "experience"
  = Ok ["experience"; "work history"; "employment"; "professional experience"].
Proof. reflexivity. Qed.

Lemma detect_cv_issues_total (cv_text : string) :
  ∃ issues, _detect_cv_issues cv_text = Ok issues.
Proof.
  unfold _detect_cv_issues. rewrite getitem_skills. cbn [mbind result_bind].
  rewrite getitem_experience. cbn [mbind result_bind].
  unfold mret, result_ret.
  eauto.
Qed.

(** Membership in the list the detector returns, rule by rule. *)
Lemma detect_cv_issues_elem (cv_text : string) (issues : list string)
    (x : string) :
  _detect_cv_issues cv_text = Ok issues ->
  x ∈ issues ↔
    (x = "vague_objective"
     ∧ mentions (Py.lower cv_text) ["seeking"; "looking for"; "opportunity"]
       = true
     ∧ mentions (Py.lower cv_text) ["specific"; "specialize"; "expert in"]
       = false)
    ∨ (x = "no_metrics" ∧ Re.search metrics_pattern cv_text = false)
    ∨ (x = "buzzwords"
       ∧ 2 ≤ Py.count_if (fun bw => Py.contains bw (Py.lower cv_text))
               ["synergy"; "innovative"; "dynamic"; "results-driven";
                "team player"; "hard worker"])
    ∨ (x = "length"
       ∧ (length (Py.split cv_text) < 200 ∨ 1000 < length (Py.split cv_text)))
    ∨ (x = "formatting"
       ∧ (mentions (Py.lower cv_text)
            ["skills"; "technical skills"; "competencies"; "expertise"] = false
          ∨ mentions (Py.lower cv_text)
              ["experience"; "work history"; "employment";
               "professional experience"] = false)).
Proof.
  unfold _detect_cv_issues. rewrite getitem_skills. cbn [mbind result_bind].
  rewrite getitem_experience. cbn [mbind result_bind].
  unfold mret, result_ret.
  change (Py.any (λ kw, Py.contains kw (Py.lower cv_text)))
    with (mentions (Py.lower cv_text)).
  generalize (mentions (Py.lower cv_text)
                ["seeking"; "looking for"; "opportunity"]).
  generalize (mentions (Py.lower cv_text)
                ["specific"; "specialize"; "expert in"]).
  generalize (mentions (Py.lower cv_text)
                ["skills"; "technical skills"; "competencies"; "expertise"]).
  generalize (mentions (Py.lower cv_text)
                ["experience"; "work history"; "employment";
                 "professional experience"]).
  generalize (Re.search metrics_pattern cv_text).
  generalize (Py.count_if (fun bw => Py.contains bw (Py.lower cv_text))
                ["synergy"; "innovative"; "dynamic"; "results-driven";
                 "team player"; "hard worker"]).
  generalize (length (Py.split cv_text)).
  intros word_count n found has_experience has_skills specific seeking.
  intros <-%Ok_inj.
  rewrite elem_of_append_if.
  assert (Hlen : ∀ l : list string,
    x ∈ (if word_count <? 200 then l ++ ["length"]
         else if 1000 <? word_count then l ++ ["length"] else l)
    ↔ x ∈ l ∨ (x = "length" ∧ (word_count < 200 ∨ 1000 < word_count))).
  { intros l.
    destruct (Nat.ltb_spec word_count 200);
      [|destruct (Nat.ltb_spec 1000 word_count)];
      rewrite ?elem_of_app, ?list_elem_of_singleton; intuition lia. }
  rewrite Hlen, !elem_of_append_if.
  assert (Hvague : ∀ l : list string,
    x ∈ (if seeking then append_if (negb specific) "vague_objective" l else l)
    ↔ x ∈ l ∨ (x = "vague_objective" ∧ seeking = true ∧ specific = false)).
  { intros l. destruct seeking;
      rewrite ?elem_of_append_if, ?negb_true_iff; intuition discriminate. }
  rewrite Hvague, elem_of_nil.
  rewrite negb_true_iff, Nat.leb_le, orb_true_iff, !negb_true_iff.
  tauto.
Qed.

(** ** Dicts built by a loop over a table with distinct keys *)

Lemma setitem_fresh {V} (d : Py.dict V) (k : string) (v : V) :
  k ∉ d.*1 -> Py.setitem d k v = d ++ [(k, v)].
Proof.
  induction d as [|[k' v'] d IH]; intros Hk; [done|].
  cbn [Py.setitem]. rewrite fmap_cons, not_elem_of_cons in Hk.
  destruct Hk as [Hne Hk]. cbn [fst] in Hne.
  destruct (String.eqb_spec k' k) as [->|_]; [done|].
  by rewrite IH.
Qed.

Lemma scan_sections_acc (table : Py.dict (list string)) (text : string)
    (acc : Py.dict bool) :
  NoDup (acc.*1 ++ table.*1) ->
  fold_left (fun d '(section, keywords) =>
               Py.setitem d section (mentions text keywords)) table acc
  = acc ++ dict_map (mentions text) table.
Proof.
  revert acc. induction table as [|[k kws] table IH]; intros acc Hnd.
  - cbn. by rewrite app_nil_r.
  - cbn [fold_left]. rewrite setitem_fresh.
    + rewrite IH.
      * unfold dict_map. rewrite fmap_cons. cbn [fst snd].
        by rewrite <- app_assoc.
      * rewrite fmap_app, <- app_assoc. exact Hnd.
    + rewrite fmap_cons in Hnd. cbn [fst] in Hnd.
      apply NoDup_app in Hnd as (_ & Hdisj & _).
      intros Hin. apply (Hdisj k Hin). left.
Qed.

Lemma scan_sections_map (table : Py.dict (list string)) (text : string) :
  NoDup table.*1 -> scan_sections table text = dict_map (mentions text) table.
Proof.
  intros Hnd. unfold scan_sections. by rewrite scan_sections_acc.
Qed.

Lemma dict_map_keys {V W} (h : V -> W) (table : Py.dict V) :
  (dict_map h table).*1 = table.*1.
Proof.
  unfold dict_map. induction table as [|[k v] table IH]; [done|].
  rewrite !fmap_cons. cbn [fst]. by f_equal.
Qed.

Lemma getitem_dict_map {V W} (h : V -> W) (table : Py.dict V)
    (k : string) (v : V) :
  NoDup table.*1 -> (k, v) ∈ table ->
  Py.getitem (dict_map h table) k = Ok (h v).
Proof.
  unfold Py.getitem, dict_map.
  induction table as [|[k' v'] table IH]; intros Hnd Hin.
  - by apply elem_of_nil in Hin.
  - rewrite fmap_cons in Hnd. cbn [fst] in Hnd.
    apply NoDup_cons in Hnd as [Hk' Hnd].
    rewrite fmap_cons. cbn [List.find fst snd].
    destruct (String.eqb_spec k' k) as [->|Hne].
    + apply elem_of_cons in Hin as [[= <-]|Hin]; [done|].
      destruct Hk'. apply list_elem_of_fmap. by exists (k, v).
    + apply elem_of_cons in Hin as [[= <- <-]|Hin]; [done|]. by apply IH.
Qed.

Lemma count_covered_dict_map {V} (f g : V -> bool) (table sub : Py.dict V) :
  NoDup table.*1 -> sub ⊆ table ->
  count_covered sub.*1 (dict_map f table) (dict_map g table)
  = Ok (Py.count_if (λ kv, f kv.2 && g kv.2) sub).
Proof.
  intros Hnd. induction sub as [|[k v] sub IH]; intros Hsub; [done|].
  rewrite fmap_cons. cbn [fst count_covered].
  assert (Hin : (k, v) ∈ table) by (apply Hsub; left).
  rewrite (getitem_dict_map f table k v Hnd Hin). cbn [mbind result_bind].
  assert (Hc : (if f v then Py.getitem (dict_map g table) k else mret false)
               = Ok (if f v then g v else false)).
  { destruct (f v); [|done]. by apply getitem_dict_map. }
  rewrite Hc. cbn [mbind result_bind].
  rewrite IH by (intros y Hy; apply Hsub; by right).
  cbn [mbind result_bind]. unfold mret, result_ret. f_equal.
  unfold Py.count_if. cbn [List.filter snd].
  destruct (f v), (g v); reflexivity.
Qed.

Lemma sum_present_dict_map {V} (f : V -> bool) (table : Py.dict V) :
  sum_list (Nat.b2n <$> (dict_map f table).*2)
  = Py.count_if (λ kv, f kv.2) table.
Proof.
  unfold dict_map, Py.count_if.
  induction table as [|[k v] table IH]; [done|].
  rewrite !fmap_cons. cbn [snd sum_list List.filter]. rewrite IH.
  by destruct (f v).
Qed.

Lemma EXPECTED_CV_ELEMENTS_NoDup : NoDup EXPECTED_CV_ELEMENTS.*1.
Proof. apply (bool_decide_unpack _). by vm_compute. Qed.

Lemma COMMON_CV_ISSUES_NoDup : NoDup issue_taxonomy.
Proof. apply (bool_decide_unpack _). by vm_compute. Qed.

(** ** [calculate_section_coverage] returns, and what it returns *)

Lemma calculate_section_coverage_eq (cv_text critique : string) :
  let present := mentions (Py.lower cv_text) in
  let covered := mentions (Py.lower critique) in
  let total := Py.count_if (λ kv, present kv.2) EXPECTED_CV_ELEMENTS in
  let both :=
    Py.count_if (λ kv, present kv.2 && covered kv.2) EXPECTED_CV_ELEMENTS in
  calculate_section_coverage cv_text critique
  = Ok {| Coverage.total_sections_in_cv := total;
          Coverage.sections_addressed_in_critique := both;
          Coverage.coverage_rate :=
            if 0 <? total then (Py.num both / Py.num total)%Qc else 0%Qc;
          Coverage.sections_present := dict_map present EXPECTED_CV_ELEMENTS;
          Coverage.sections_covered := dict_map covered EXPECTED_CV_ELEMENTS |}.
Proof.
  intros present covered total both. unfold calculate_section_coverage.
  rewrite !(scan_sections_map _ _ EXPECTED_CV_ELEMENTS_NoDup).
  fold present covered.
  rewrite dict_map_keys, sum_present_dict_map.
  rewrite (count_covered_dict_map present covered _ _
             EXPECTED_CV_ELEMENTS_NoDup) by done.
  cbn [mbind result_bind]. fold total both.
  destruct (Nat.ltb_spec 0 total) as [Hpos|_].
  - rewrite truediv_num_Ok by done. reflexivity.
  - reflexivity.
Qed.

(** ** [calculate_issue_detection_metrics] returns, and what it returns *)

Lemma effective_ground_truth_total cv_text ground_truth_issues :
  ∃ G, effective_ground_truth cv_text ground_truth_issues = Ok G.
Proof.
  destruct ground_truth_issues as [G|]; [by exists G|].
  apply detect_cv_issues_total.
Qed.

Lemma num_nonneg (n : nat) : (0 ≤ Py.num n)%Qc.
Proof.
  unfold Py.num. rewrite <- Z2Qc_inj_0.
  apply (proj1 (Z2Qc_inj_le 0 (Z.of_nat n))). lia.
Qed.

Lemma ratio_or_0_nonneg (a b : nat) : (0 ≤ ratio_or_0 a b)%Qc.
Proof.
  unfold ratio_or_0. destruct (Nat.ltb_spec 0 b) as [Hb|_]; [|done].
  unfold Qcdiv. apply Qcmult_nonneg_nonneg; [apply num_nonneg|].
  by apply Qclt_le_weak, Qcinv_pos, num_pos.
Qed.

Lemma calculate_issue_detection_metrics_eq (cv_text critique : string)
    (ground_truth_issues : option (list string)) (G : list string) :
  effective_ground_truth cv_text ground_truth_issues = Ok G ->
  let D := detect_in_critique (Py.lower critique) in
  let tp := size (Py.set G ∩ Py.set D) in
  let fp := size (Py.set D ∖ Py.set G) in
  let fn := size (Py.set G ∖ Py.set D) in
  let p := ratio_or_0 tp (tp + fp) in
  let r := ratio_or_0 tp (tp + fn) in
  calculate_issue_detection_metrics cv_text critique ground_truth_issues
  = Ok {| Detection.precision := p;
          Detection.recall := r;
          Detection.f1_score := harmonic_or_0 p r;
          Detection.true_positives := tp;
          Detection.false_positives := fp;
          Detection.false_negatives := fn;
          Detection.ground_truth_issues := G;
          Detection.detected_issues := D;
          Detection.missed_issues := Py.set G ∖ Py.set D;
          Detection.extra_mentions := Py.set D ∖ Py.set G |}.
Proof.
  intros HG D tp fp fn p r. unfold calculate_issue_detection_metrics.
  erewrite bind_Ok by exact HG. fold D tp fp fn.
  assert (Hp : (if 0 <? tp + fp
                then Py.truediv (Py.num tp) (Py.num (tp + fp))
                else mret 0%Qc) = Ok p).
  { unfold p, ratio_or_0. destruct (Nat.ltb_spec 0 (tp + fp)); [|done].
    by rewrite truediv_num_Ok. }
  assert (Hr : (if 0 <? tp + fn
                then Py.truediv (Py.num tp) (Py.num (tp + fn))
                else mret 0%Qc) = Ok r).
  { unfold r, ratio_or_0. destruct (Nat.ltb_spec 0 (tp + fn)); [|done].
    by rewrite truediv_num_Ok. }
  rewrite Hp. cbn [mbind result_bind]. rewrite Hr. cbn [mbind result_bind].
  assert (Hf : (if decide (0 < p + r)%Qc
                then Py.truediv (2 * (p * r))%Qc (p + r)%Qc
                else mret 0%Qc) = Ok (harmonic_or_0 p r)).
  { unfold harmonic_or_0. destruct (decide (0 < p + r)%Qc) as [Hpos|]; [|done].
    rewrite truediv_Ok; [done|]. intros Hz.
    exact (Qclt_not_eq _ _ Hpos (eq_sym Hz)). }
  rewrite Hf. reflexivity.
Qed.

(** ** Confusion counts *)

Lemma size_inter_diff (X Y : gset string) :
  size (X ∩ Y) + size (X ∖ Y) = size X.
Proof.
  rewrite <- size_union by set_solver. f_equal.
  apply set_eq. intros x. rewrite elem_of_union, elem_of_intersection,
    elem_of_difference. destruct (decide (x ∈ Y)); naive_solver.
Qed.

Lemma detect_in_critique_acc (table : Py.dict (list string)) (text : string)
    (acc : list string) (x : string) :
  x ∈ fold_left (fun detected '(issue_category, keywords) =>
                   append_if (mentions text keywords) issue_category detected)
        table acc
  ↔ x ∈ acc ∨ ∃ keywords, (x, keywords) ∈ table ∧ mentions text keywords = true.
Proof.
  revert acc. induction table as [|[k kws] table IH]; intros acc.
  - cbn. split; [by left|]. intros [?|(? & Hin & _)]; [done|].
    by apply elem_of_nil in Hin.
  - cbn [fold_left]. rewrite IH, elem_of_append_if. split.
    + intros [[?|[-> ?]]|(kws' & Hin & ?)]; [by left|right..].
      * exists kws. split; [left|done].
      * exists kws'. split; [by right|done].
    + intros [?|(kws' & Hin & Hm)]; [by left; left|].
      apply elem_of_cons in Hin as [[= -> ->]|Hin].
      * left; right. done.
      * right. by exists kws'.
Qed.

(** A category is detected exactly when one of its keywords occurs. *)
Lemma detect_in_critique_elem (text x : string) :
  x ∈ detect_in_critique text
  ↔ ∃ keywords, (x, keywords) ∈ COMMON_CV_ISSUES ∧ mentions text keywords = true.
Proof.
  unfold detect_in_critique. rewrite detect_in_critique_acc, elem_of_nil.
  naive_solver.
Qed.

Lemma detect_in_critique_taxonomy (text x : string) :
  x ∈ detect_in_critique text -> x ∈ issue_taxonomy.
Proof.
  rewrite detect_in_critique_elem. intros (kws & Hin & _).
  unfold issue_taxonomy. apply list_elem_of_fmap. by exists (x, kws).
Qed.

(** ** The table of [evaluate_all_models] *)

Lemma evaluate_one_total (cv_text : string)
    (ground_truth_issues : option (list string)) (item : string * string) :
  ∃ row, evaluate_one cv_text ground_truth_issues item = Ok row
    ∧ row_of cv_text ground_truth_issues item row.
Proof.
  destruct item as [model_name critique]. unfold evaluate_one.
  rewrite calculate_section_coverage_eq. cbn [mbind result_bind].
  destruct (effective_ground_truth_total cv_text ground_truth_issues)
    as [G HG].
  rewrite (calculate_issue_detection_metrics_eq _ _ _ G HG).
  cbn [mbind result_bind]. eexists. split; [reflexivity|].
  split; [reflexivity|]. eexists.
  split; [by apply calculate_issue_detection_metrics_eq|]. done.
Qed.

Lemma evaluate_all_models_total (cv_text : string)
    (critiques : Py.dict string)
    (ground_truth_issues : option (list string)) :
  ∃ df, evaluate_all_models cv_text critiques ground_truth_issues = Ok df
    ∧ Forall2 (row_of cv_text ground_truth_issues) critiques df.
Proof.
  induction critiques as [|item critiques (df & Hdf & Hrows)].
  - exists []. split; [done|]. constructor.
  - destruct (evaluate_one_total cv_text ground_truth_issues item)
      as (row & Hrow & Hof).
    exists (row :: df). cbn [evaluate_all_models].
    rewrite Hrow. cbn [mbind result_bind]. rewrite Hdf.
    cbn [mbind result_bind]. split; [done|]. by constructor.
Qed.

(** ** [idxmax]: the first position of the maximum *)

Lemma idxmax_go_spec (col : list Qc) (best_i : nat) (best : Qc) (i : nat) :
  let k := Pandas.idxmax_go best_i best i col in
  (k = best_i ∧ Forall (λ x, (x ≤ best)%Qc) col)
  ∨ (∃ j m, k = i + j ∧ col !! j = Some m ∧ (best < m)%Qc
       ∧ Forall (λ x, (x ≤ m)%Qc) col
       ∧ ∀ j' y, j' < j -> col !! j' = Some y -> (y < m)%Qc).
Proof.
  revert best_i best i. induction col as [|x col IH]; intros best_i best i.
  - left. split; [done|]. constructor.
  - cbn [Pandas.idxmax_go]. destruct (decide (best < x)%Qc) as [Hlt|Hge].
    + right. destruct (IH i x (S i)) as [[Hk Hall]|(j & m & Hk & Hj & Hm & Hall & Hbefore)].
      * exists 0, x. rewrite Nat.add_0_r. split; [done|]. split; [done|].
        split; [done|]. split; [by constructor|]. intros j' y Hj'. lia.
      * exists (S j), m. split; [lia|]. split; [done|].
        split; [by etrans|]. split.
        { constructor; [by apply Qclt_le_weak|done]. }
        intros [|j'] y Hj' Hy.
        -- by injection Hy as <-.
        -- apply (Hbefore j'); [lia|done].
    + apply Qcnot_lt_le in Hge.
      destruct (IH best_i best (S i)) as [[Hk Hall]|(j & m & Hk & Hj & Hm & Hall & Hbefore)].
      * left. split; [done|]. by constructor.
      * right. exists (S j), m. split; [lia|]. split; [done|].
        split; [done|]. split.
        { constructor; [|done]. apply Qclt_le_weak. by eapply Qcle_lt_trans. }
        intros [|j'] y Hj' Hy.
        -- injection Hy as <-. by eapply Qcle_lt_trans.
        -- apply (Hbefore j'); [lia|done].
Qed.

Lemma idxmax_spec (col : list Qc) :
  col ≠ [] ->
  ∃ k m, Pandas.idxmax col = Ok k ∧ col !! k = Some m
    ∧ Forall (λ x, (x ≤ m)%Qc) col
    ∧ ∀ j y, j < k -> col !! j = Some y -> (y < m)%Qc.
Proof.
  destruct col as [|x col]; [done|]. intros _. cbn [Pandas.idxmax].
  destruct (idxmax_go_spec col 0 x 1)
    as [[Hk Hall]|(j & m & Hk & Hj & Hm & Hall & Hbefore)].
  - exists 0, x. split; [by rewrite Hk|]. split; [done|].
    split; [by constructor|]. intros j y Hj. lia.
  - exists (S j), m. split; [by rewrite Hk|]. split; [done|]. split.
    { constructor; [by apply Qclt_le_weak|done]. }
    intros [|j'] y Hj' Hy.
    + by injection Hy as <-.
    + apply (Hbefore j'); [lia|done].
Qed.

Lemma best_model_row_spec (df : list EvalRow.t) :
  df ≠ [] ->
  ∃ i best, best_model_row df = Ok best ∧ df !! i = Some best
    ∧ (∀ j row, df !! j = Some row ->
         (EvalRow.f1_score row ≤ EvalRow.f1_score best)%Qc)
    ∧ (∀ j row, j < i -> df !! j = Some row ->
         (EvalRow.f1_score row < EvalRow.f1_score best)%Qc).
Proof.
  intros Hne.
  destruct (idxmax_spec (EvalRow.f1_score <$> df))
    as (k & m & Hk & Hm & Hall & Hbefore).
  { by destruct df. }
  apply list_lookup_fmap_Some in Hm as (best & -> & Hbest).
  assert (Hcol : Pandas.column EvalRow.f1_score df
                 = Ok (EvalRow.f1_score <$> df)) by by destruct df.
  exists k, best. unfold best_model_row.
  rewrite Hcol. cbn [mbind result_bind]. rewrite Hk. cbn [mbind result_bind].
  unfold Pandas.loc. rewrite Hbest. split; [done|]. split; [done|]. split.
  - intros j row Hrow. rewrite Forall_forall in Hall. apply Hall.
    apply list_elem_of_fmap. exists row. split; [done|].
    by eapply list_elem_of_lookup_2.
  - intros j row Hj Hrow. apply (Hbefore j); [done|].
    by rewrite list_lookup_fmap, Hrow.
Qed.

(** ** What [re.search] finds *)

Lemma str_app_cons (c : ascii) (s t : string) :
  String c s +:+ t = String c (s +:+ t).
Proof. reflexivity. Qed.

Lemma str_app_nil_l (s : string) : "" +:+ s = s.
Proof. reflexivity. Qed.

Lemma str_app_nil_r (s : string) : s +:+ "" = s.
Proof. induction s as [|c s IH]; [done|]. by rewrite str_app_cons, IH. Qed.

Lemma str_app_assoc (s t u : string) : (s +:+ t) +:+ u = s +:+ (t +:+ u).
Proof.
  induction s as [|c s IH]; [done|]. by rewrite !str_app_cons, IH.
Qed.

Lemma str_app_nil_inv (s t : string) : s +:+ t = "" -> s = "" ∧ t = "".
Proof. destruct s; [done|]. rewrite str_app_cons. discriminate. Qed.

Lemma str_app_cons_inv (s t : string) (c : ascii) (u : string) :
  s +:+ t = String c u ->
  (s = "" ∧ t = String c u) ∨ (∃ s', s = String c s' ∧ u = s' +:+ t).
Proof.
  destruct s as [|c' s']; [by left|]. rewrite str_app_cons.
  intros [= -> <-]. right. by exists s'.
Qed.

Lemma nullable_Matches (r : Re.regex) :
  Re.nullable r = true ↔ Matches r "".
Proof.
  split.
  - induction r as [| | | |r1 IH1 r2 IH2|r1 IH1 r2 IH2|r IH];
      cbn [Re.nullable]; intros Hn; try discriminate.
    + constructor.
    + apply andb_true_iff in Hn as [H1 H2].
      change "" with ("" +:+ ""). constructor; auto.
    + apply orb_true_iff in Hn as [H1|H2];
        [apply MAltL|apply MAltR]; auto.
    + constructor.
  - intros H. remember "" as s eqn:Hs.
    induction H as [| | |r1 r2 s1 s2 H1 IH1 H2 IH2|r1 r2 s H IH|r1 r2 s H IH
                    | |]; cbn [Re.nullable]; try done.
    + apply str_app_nil_inv in Hs as [-> ->]. by rewrite IH1, IH2.
    + by rewrite IH.
    + rewrite IH by done. apply orb_true_r.
Qed.

Lemma deriv_Matches_1 (c : ascii) (r : Re.regex) (s : string) :
  Matches (Re.deriv c r) s -> Matches r (String c s).
Proof.
  revert s. induction r as [| |d|p|r1 IH1 r2 IH2|r1 IH1 r2 IH2|r IH];
    intros s; cbn [Re.deriv]; intros H.
  - inversion H.
  - inversion H.
  - destruct (Ascii.eqb_spec c d) as [->|_]; inversion H. constructor.
  - destruct (p c) eqn:Hp; inversion H. by constructor.
  - assert (Hcat : ∀ t, Matches (Re.Cat (Re.deriv c r1) r2) t ->
                        Matches (Re.Cat r1 r2) (String c t)).
    { intros t Ht. inversion Ht as [| | |? ? s1 s2 H1 H2| | | |]; subst.
      rewrite <- str_app_cons. constructor; auto. }
    destruct (Re.nullable r1) eqn:Hn; [|by apply Hcat].
    inversion H as [| | | |? ? ? Hl|? ? ? Hr| |]; subst; [by apply Hcat|].
    rewrite <- (str_app_nil_l (String c s)). constructor; [|by apply IH2].
    by apply nullable_Matches.
  - inversion H as [| | | |? ? ? Hl|? ? ? Hr| |]; subst;
      [apply MAltL|apply MAltR]; auto.
  - inversion H as [| | |? ? s1 s2 H1 H2| | | |]; subst.
    rewrite <- str_app_cons. constructor; auto.
Qed.

Lemma deriv_Matches_2 (r : Re.regex) (s0 : string) :
  Matches r s0 -> ∀ c s, s0 = String c s -> Matches (Re.deriv c r) s.
Proof.
  induction 1 as [|d|p d Hp|r1 r2 s1 s2 H1 IH1 H2 IH2|r1 r2 s1 H IH
                  |r1 r2 s1 H IH|r|r s1 s2 H1 IH1 H2 IH2];
    intros c s Hs; cbn [Re.deriv]; try discriminate.
  - injection Hs as -> <-. rewrite Ascii.eqb_refl. constructor.
  - injection Hs as -> <-. rewrite Hp. constructor.
  - apply str_app_cons_inv in Hs as [[-> ->]|(s1' & -> & ->)].
    + apply nullable_Matches in H1 as ->. apply MAltR. by apply IH2.
    + destruct (Re.nullable r1); [apply MAltL|]; constructor; auto.
  - apply MAltL. by apply IH.
  - apply MAltR. by apply IH.
  - apply str_app_cons_inv in Hs as [[-> ->]|(s1' & -> & ->)].
    + by apply IH2.
    + constructor; auto.
Qed.

Lemma deriv_Matches (c : ascii) (r : Re.regex) (s : string) :
  Matches (Re.deriv c r) s ↔ Matches r (String c s).
Proof.
  split; [apply deriv_Matches_1|]. intros H. by eapply deriv_Matches_2.
Qed.

Lemma match_prefix_spec (r : Re.regex) (s : string) :
  Re.match_prefix r s = true ↔ ∃ w rest, s = w +:+ rest ∧ Matches r w.
Proof.
  revert r. induction s as [|c s IH]; intros r; cbn [Re.match_prefix].
  - rewrite orb_false_r, nullable_Matches. split.
    + intros H. by exists "", "".
    + intros (w & rest & Hs & H). symmetry in Hs.
      by apply str_app_nil_inv in Hs as [-> _].
  - rewrite orb_true_iff, nullable_Matches, IH. split.
    + intros [H|(w & rest & -> & H)].
      * by exists "", (String c s).
      * exists (String c w), rest. split; [done|]. by apply deriv_Matches.
    + intros (w & rest & Hs & H). symmetry in Hs.
      apply str_app_cons_inv in Hs as [[-> _]|(w' & -> & ->)]; [by left|].
      right. exists w', rest. split; [done|]. by apply deriv_Matches.
Qed.

Lemma search_spec (r : Re.regex) (s : string) :
  Re.search r s = true ↔ occurs (Matches r) s.
Proof.
  unfold occurs. induction s as [|c s IH]; cbn [Re.search].
  - rewrite orb_false_r, match_prefix_spec. split.
    + intros (w & rest & -> & H). by exists "", w, rest.
    + intros (pre & w & rest & Hs & H). symmetry in Hs.
      apply str_app_nil_inv in Hs as [-> Hs]. by exists w, rest.
  - rewrite orb_true_iff, match_prefix_spec, IH. split.
    + intros [(w & rest & -> & H)|(pre & w & rest & -> & H)].
      * by exists "", w, rest.
      * by exists (String c pre), w, rest.
    + intros (pre & w & rest & Hs & H). symmetry in Hs.
      apply str_app_cons_inv in Hs as [[-> Hs]|(pre' & -> & ->)].
      * left. by exists w, rest.
      * right. by exists pre', w, rest.
Qed.

(** ** The pattern of the detector, phrase by phrase *)

Lemma Matches_Cat_iff (r1 r2 : Re.regex) (w : string) :
  Matches (Re.Cat r1 r2) w
  ↔ ∃ s1 s2, w = s1 +:+ s2 ∧ Matches r1 s1 ∧ Matches r2 s2.
Proof.
  split.
  - intros H. inversion H as [| | |? ? s1 s2 H1 H2| | | |]; subst.
    by exists s1, s2.
  - intros (s1 & s2 & -> & H1 & H2). by constructor.
Qed.

Lemma Matches_Alt_iff (r1 r2 : Re.regex) (w : string) :
  Matches (Re.Alt r1 r2) w ↔ Matches r1 w ∨ Matches r2 w.
Proof.
  split.
  - intros H. inversion H; subst; auto.
  - intros [H|H]; [by apply MAltL|by apply MAltR].
Qed.

Lemma Matches_Chr_iff (c : ascii) (w : string) :
  Matches (Re.Chr c) w ↔ w = String c "".
Proof.
  split.
  - intros H. by inversion H.
  - intros ->. constructor.
Qed.

Lemma Matches_Lit_iff (s w : string) : Matches (Re.Lit s) w ↔ w = s.
Proof.
  revert w. induction s as [|c s IH]; intros w; cbn [Re.Lit].
  - split; [intros H; by inversion H|intros ->; constructor].
  - rewrite Matches_Cat_iff. split.
    + intros (s1 & s2 & -> & H1 & H2).
      apply Matches_Chr_iff in H1 as ->. by apply IH in H2 as ->.
    + intros ->. exists (String c ""), s.
      split; [done|]. split; [constructor|by apply IH].
Qed.

Lemma Matches_Star_digits (s0 : string) (r : Re.regex) :
  Matches r s0 -> r = Re.Star (Re.Class Py.isdigit) -> all_digits s0 = true.
Proof.
  induction 1 as [| | | | | |r|r s1 s2 H1 _ H2 IH2]; intros Hr;
    try discriminate; [done|].
  injection Hr as ->. inversion H1 as [| |? c Hc| | | | |]; subst.
  rewrite str_app_cons, str_app_nil_l. cbn [all_digits].
  by rewrite Hc, IH2.
Qed.

Lemma all_digits_Matches_Star (s : string) :
  all_digits s = true -> Matches (Re.Star (Re.Class Py.isdigit)) s.
Proof.
  induction s as [|c s IH]; cbn [all_digits]; [constructor|].
  intros [Hc Hs]%andb_true_iff.
  change (String c s) with (String c "" +:+ s).
  constructor; [by constructor|by apply IH].
Qed.

Lemma Matches_number_iff (w : string) :
  Matches (Re.Plus (Re.Class Py.isdigit)) w ↔ is_number w.
Proof.
  unfold Re.Plus, is_number. rewrite Matches_Cat_iff. split.
  - intros (s1 & s2 & -> & H1 & H2).
    inversion H1 as [| |? c Hc| | | | |]; subst.
    rewrite str_app_cons, str_app_nil_l. split; [done|].
    cbn [all_digits]. rewrite Hc. by eapply Matches_Star_digits.
  - intros [Hne Hall]. destruct w as [|c w]; [done|].
    cbn [all_digits] in Hall. apply andb_true_iff in Hall as [Hc Hw].
    exists (String c ""), w. split; [done|].
    split; [by constructor|by apply all_digits_Matches_Star].
Qed.

Lemma Matches_metrics_pattern (w : string) :
  Matches metrics_pattern w ↔ regex_metric_phrase w.
Proof.
  unfold metrics_pattern, regex_metric_phrase, is_percentage, is_multiplier,
    regex_verb_phrase.
  cbv zeta. rewrite !Matches_Alt_iff, !Matches_Cat_iff, !Matches_Lit_iff.
  setoid_rewrite Matches_number_iff. setoid_rewrite Matches_Chr_iff.
  setoid_rewrite Matches_Lit_iff. naive_solver.
Qed.

(** The detector reports no_metrics exactly when the text contains no
    phrase of the pattern: no percentage, no multiplier, none of
    "increased" and "reduced", and no "improved N"; the text is searched
    as it is, in its own case. *)
Lemma no_metrics_iff_no_pattern_phrase (cv_text : string) :
  ∃ issues, _detect_cv_issues cv_text = Ok issues
    ∧ ("no_metrics" ∈ issues ↔ ¬ contains_regex_metric_phrase cv_text).
Proof.
  destruct (detect_cv_issues_total cv_text) as [issues Hissues].
  exists issues. split; [done|].
  rewrite (detect_cv_issues_elem _ _ _ Hissues).
  assert (Hsearch : Re.search metrics_pattern cv_text = false
                    ↔ ¬ contains_regex_metric_phrase cv_text).
  { rewrite <- not_true_iff_false, search_spec.
    unfold contains_regex_metric_phrase, occurs.
    by setoid_rewrite Matches_metrics_pattern. }
  rewrite <- Hsearch. split; [|by eauto 10].
  intros [[[=] _]|[[_ H]|[[[=] _]|[[[=] _]|[[=] _]]]]]. exact H.
Qed.

(** ** The pattern against the words of the specification *)

Lemma has_digit_app (s t : string) :
  has_digit (s +:+ t) = has_digit s || has_digit t.
Proof.
  induction s as [|c s IH]; [done|].
  rewrite str_app_cons. cbn [has_digit]. by rewrite IH, orb_assoc.
Qed.

Lemma is_number_has_digit (n : string) : is_number n -> has_digit n = true.
Proof.
  intros [Hne Hall]. destruct n as [|c n]; [done|].
  cbn [all_digits] in Hall. apply andb_true_iff in Hall as [Hc _].
  cbn [has_digit]. by rewrite Hc.
Qed.

(** Every metric pattern of the specification holds a digit. *)
Lemma spec_metric_pattern_has_digit (w : string) :
  spec_metric_pattern w -> has_digit w = true.
Proof.
  intros [(n & Hn & ->)|[(n & Hn & ->)|(verb & n & _ & Hn & ->)]];
    rewrite !has_digit_app, (is_number_has_digit n Hn);
    by rewrite ?orb_true_r.
Qed.

Lemma spec_contains_has_digit (text : string) :
  spec_contains_metric_pattern text -> has_digit text = true.
Proof.
  intros (pre & w & rest & -> & Hw).
  rewrite !has_digit_app, (spec_metric_pattern_has_digit w Hw).
  cbn [orb]. apply orb_true_r.
Qed.

(** A text with a metric pattern of the specification has a phrase of
    the pattern of the code: the code may miss no_metrics, it never
    reports it against the specification. *)
Lemma spec_contains_regex (text : string) :
  spec_contains_metric_pattern text -> contains_regex_metric_phrase text.
Proof.
  intros (pre & w & rest & -> & [Hp|[Hm|(verb & n & Hverb & Hn & ->)]]).
  - exists pre, w, rest. split; [done|]. by left.
  - exists pre, w, rest. split; [done|]. by right; left.
  - set_unfold in Hverb. destruct Hverb as [-> | [-> | [-> | []]]].
    + exists pre, "increased", (" " +:+ n +:+ rest).
      split; [done|]. by right; right; left.
    + exists pre, "reduced", (" " +:+ n +:+ rest).
      split; [done|]. by right; right; right; left.
    + exists pre, ("improved " +:+ n), rest.
      split; [done|]. right; right; right; right. by exists n.
Qed.

Lemma no_metrics_only_without_spec_pattern (cv_text : string)
    (issues : list string) :
  _detect_cv_issues cv_text = Ok issues ->
  "no_metrics" ∈ issues -> ¬ spec_contains_metric_pattern cv_text.
Proof.
  intros Hissues Hin Hspec.
  destruct (no_metrics_iff_no_pattern_phrase cv_text)
    as (issues' & Hissues' & Hiff).
  rewrite Hissues in Hissues'. apply Ok_inj in Hissues' as <-.
  apply Hiff in Hin. by apply Hin, spec_contains_regex.
Qed.

(** ** The code on concrete inputs *)

Example detect_sample_cv :
  _detect_cv_issues sample_cv = Ok ["vague_objective"; "no_metrics"; "length"].
Proof. by vm_compute. Qed.

Example word_count_sample_cv : length (Py.split sample_cv) = 42.
Proof. by vm_compute. Qed.

Example detected_in_critique_medium :
  detect_in_critique (Py.lower critique_medium)
  = ["vague_objective"; "no_metrics"].
Proof. by vm_compute. Qed.

Example search_percentage :
  Re.search metrics_pattern "Grew revenue by 20%" = true.
Proof. by vm_compute. Qed.

Example search_multiplier :
  Re.search metrics_pattern "a 10x speedup" = true.
Proof. by vm_compute. Qed.

Example search_increased_alone :
  Re.search metrics_pattern "We increased sales" = true.
Proof. by vm_compute. Qed.

Example search_improved_number :
  Re.search metrics_pattern "improved 3 services" = true.
Proof. by vm_compute. Qed.

Example search_improved_alone :
  Re.search metrics_pattern "improved quality" = false.
Proof. by vm_compute. Qed.

Example search_is_case_sensitive :
  Re.search metrics_pattern "Increased sales 5X" = false.
Proof. by vm_compute. Qed.

Example detect_50_words :
  length (Py.split (repeat_words 50)) = 50
  ∧ _detect_cv_issues (repeat_words 50)
    = Ok ["no_metrics"; "length"; "formatting"].
Proof. by vm_compute. Qed.

Example detect_500_words :
  length (Py.split (repeat_words 500)) = 500
  ∧ _detect_cv_issues (repeat_words 500) = Ok ["no_metrics"; "formatting"].
Proof. by vm_compute. Qed.

Example detect_1500_words :
  length (Py.split (repeat_words 1500)) = 1500
  ∧ ∃ issues, _detect_cv_issues (repeat_words 1500) = Ok issues
      ∧ "length" ∈ issues.
Proof.
  assert (Hwc : length (Py.split (repeat_words 1500)) = 1500)
    by (by vm_compute).
  split; [done|].
  destruct (detect_cv_issues_total (repeat_words 1500)) as [issues Hissues].
  exists issues. split; [done|].
  rewrite (detect_cv_issues_elem _ _ _ Hissues), Hwc.
  do 3 right. left. split; [done|]. right. lia.
Qed.

Example detect_200_words :
  _detect_cv_issues (repeat_words 200) = Ok ["no_metrics"; "formatting"].
Proof. by vm_compute. Qed.

Example detect_1000_words :
  length (Py.split (repeat_words 1000)) = 1000
  ∧ ∃ issues, _detect_cv_issues (repeat_words 1000) = Ok issues
      ∧ "length" ∉ issues.
Proof.
  assert (Hwc : length (Py.split (repeat_words 1000)) = 1000)
    by (by vm_compute).
  split; [done|].
  destruct (detect_cv_issues_total (repeat_words 1000)) as [issues Hissues].
  exists issues. split; [done|].
  rewrite (detect_cv_issues_elem _ _ _ Hissues), Hwc.
  intros [[[=] _]|[[[=] _]|[[[=] _]|[[_ H]|[[=] _]]]]]. lia.
Qed.

Example best_of_mock_critiques :
  (df ← evaluate_all_models sample_cv mock_critiques None;
   row ← best_model_row df; mret (EvalRow.model row)) = Ok "medium".
Proof. by vm_compute. Qed.

Example idxmax_tie :
  Pandas.idxmax [Py.num 0; Py.num 1; Py.num 1; Py.num 0] = Ok 1.
Proof. by vm_compute. Qed.

(** The counts (3, 2, 1) and (2, 0, 2) give the same exact F1, 2/3, and
    two different doubles, the first the smaller one. *)
Example f1_of_3_2_1_as_double :
  Float64.f1_score 3 2 1 = S754_finite false 6004799503160660 (-53).
Proof. by vm_compute. Qed.

Example f1_of_2_0_2_as_double :
  Float64.f1_score 2 0 2 = S754_finite false 6004799503160661 (-53).
Proof. by vm_compute. Qed.

Example f1_of_3_2_1_and_2_0_2_exact :
  harmonic_or_0 (ratio_or_0 3 (3 + 2)) (ratio_or_0 3 (3 + 1))
  = harmonic_or_0 (ratio_or_0 2 (2 + 0)) (ratio_or_0 2 (2 + 2)).
Proof. apply Qc_is_canon. by vm_compute. Qed.

(** On the two doubles the selection takes the second row, the greater
    F1; on an exact tie it takes the first. *)
Example best_of_neighbouring_doubles :
  (row ← best_model_row neighbouring_doubles_table;
   mret (EvalRow.model row)) = Ok "second".
Proof. by vm_compute. Qed.

Example best_of_exact_tie :
  (row ← best_model_row
            [row_with "first" (Py.num 1); row_with "second" (Py.num 1)];
   mret (EvalRow.model row)) = Ok "first".
Proof. by vm_compute. Qed.

Example best_of_empty_table : best_model_row [] = Raise KeyError.
Proof. reflexivity. Qed.

(** ** The claims *)

(** C1, as the code has it: for the sample document and the critique
    "Missing quantifiable results. Experience section is too vague. Skills
    need organization." with ground truth vague_objective and no_metrics,
    the detected list is vague_objective ("vague" occurs) and no_metrics
    ("quantif" occurs), so true_positives = 2, false_positives =
    false_negatives = 0 and precision = recall = F1 = 1. *)
Theorem C1_scenario_B_metrics :
  ∃ d, calculate_issue_detection_metrics sample_cv critique_medium
         (Some ["vague_objective"; "no_metrics"]) = Ok d
    ∧ Py.contains "quantif" (Py.lower critique_medium) = true
    ∧ Py.contains "vague" (Py.lower critique_medium) = true
    ∧ Detection.detected_issues d = ["vague_objective"; "no_metrics"]
    ∧ "no_metrics" ∈ Detection.detected_issues d
    ∧ Detection.true_positives d = 2
    ∧ Detection.false_positives d = 0
    ∧ Detection.false_negatives d = 0
    ∧ Detection.recall d = 1%Qc
    ∧ Detection.precision d = 1%Qc
    ∧ Detection.f1_score d = 1%Qc.
Proof.
  eexists. split; [by apply calculate_issue_detection_metrics_eq|].
  cbn [Detection.detected_issues Detection.true_positives
       Detection.false_positives Detection.false_negatives
       Detection.recall Detection.precision Detection.f1_score].
  assert (HD : detect_in_critique (Py.lower critique_medium)
               = ["vague_objective"; "no_metrics"]) by (by vm_compute).
  rewrite HD.
  split; [by vm_compute|]. split; [by vm_compute|]. split; [done|].
  split; [by right; left|].
  split; [by vm_compute|]. split; [by vm_compute|]. split; [by vm_compute|].
  repeat split; apply Qc_is_canon; by vm_compute.
Qed.

(** C1 fails as stated: the scorer does not return true_positives = 1,
    recall = 0.5 and an F1 that rounds to 0.667 on this input. *)
Lemma C1_scenario_B_not_half_recall :
  ¬ ∃ d, calculate_issue_detection_metrics sample_cv critique_medium
           (Some ["vague_objective"; "no_metrics"]) = Ok d
      ∧ "no_metrics" ∈ Detection.detected_issues d
      ∧ Detection.true_positives d = 1
      ∧ Detection.recall d = (Qc_of_Z 1 / Qc_of_Z 2)%Qc
      ∧ Detection.precision d = 1%Qc
      ∧ (Qc_of_Z 6665 / Qc_of_Z 10000 ≤ Detection.f1_score d)%Qc
      ∧ (Detection.f1_score d < Qc_of_Z 6675 / Qc_of_Z 10000)%Qc.
Proof.
  intros (d & Hd & _ & Htp & _).
  rewrite (calculate_issue_detection_metrics_eq sample_cv critique_medium
             (Some ["vague_objective"; "no_metrics"])
             ["vague_objective"; "no_metrics"]) in Hd by reflexivity.
  apply Ok_inj in Hd. subst d. cbn [Detection.true_positives] in Htp.
  vm_compute in Htp. discriminate.
Qed.

(** C2, as the code has it: a caller-supplied ground-truth list is never
    validated.  Whatever it holds, the scorer returns a result with the
    list kept as it is; the detected categories all belong to the
    taxonomy; an identifier outside the taxonomy is never detected, so it
    ends among the missed issues, which false_negatives counts. *)
Theorem C2_supplied_ground_truth_not_validated (cv_text critique : string)
    (G : list string) :
  ∃ d, calculate_issue_detection_metrics cv_text critique (Some G) = Ok d
    ∧ Detection.ground_truth_issues d = G
    ∧ (∀ x, x ∈ Detection.detected_issues d -> x ∈ issue_taxonomy)
    ∧ (∀ x, x ∈ G -> x ∉ issue_taxonomy -> x ∈ Detection.missed_issues d)
    ∧ Detection.false_negatives d = size (Detection.missed_issues d).
Proof.
  eexists. split; [by apply calculate_issue_detection_metrics_eq|].
  cbn [Detection.ground_truth_issues Detection.detected_issues
       Detection.missed_issues Detection.false_negatives].
  split; [done|]. split; [|split; [|done]].
  - intros x. apply detect_in_critique_taxonomy.
  - intros x HG Hout. unfold Py.set.
    rewrite elem_of_difference, !elem_of_list_to_set. split; [done|].
    intros HD. by apply Hout, (detect_in_critique_taxonomy (Py.lower critique)).
Qed.

(** C2 fails as stated: a ground truth naming a category outside the
    taxonomy is scored, not rejected. *)
Lemma C2_unknown_category_is_scored :
  ("bogus" ∉ issue_taxonomy)
  ∧ ∃ d, calculate_issue_detection_metrics sample_cv critique_medium
           (Some ["bogus"]) = Ok d
      ∧ "bogus" ∈ Detection.ground_truth_issues d
      ∧ Detection.false_negatives d = 1.
Proof.
  split.
  - apply (bool_decide_unpack _). by vm_compute.
  - eexists. split; [by apply calculate_issue_detection_metrics_eq|].
    cbn [Detection.ground_truth_issues Detection.false_negatives].
    split; [by left|]. by vm_compute.
Qed.

(** C3: on the document "We increased sales" the code and the claim
    part.  The text holds no digit, so it contains no percentage, no
    multiplier and no verb followed by a number, and by the claim
    no_metrics is present; the pattern of the code matches the word
    "increased" alone, and the detector returns length and formatting
    only, without no_metrics. *)
Theorem C3_verb_without_number_hides_no_metrics :
  ¬ spec_contains_metric_pattern "We increased sales"
  ∧ Re.search metrics_pattern "We increased sales" = true
  ∧ _detect_cv_issues "We increased sales" = Ok ["length"; "formatting"]
  ∧ "no_metrics" ∉ ["length"; "formatting"].
Proof.
  split.
  - intros H. apply spec_contains_has_digit in H. by vm_compute in H.
  - split; [by vm_compute|]. split; [by vm_compute|].
    apply (bool_decide_unpack _). by vm_compute.
Qed.

(** C4: for every document, critique and ground truth, both scorers
    return a result and raise nothing; coverage_rate is covered /
    total_present when total_present > 0 and 0 otherwise; precision is
    TP / (TP + FP), recall is TP / (TP + FN) and F1 is 2PR / (P + R), each
    when its denominator is positive, and 0 when the denominator is 0
    (precision and recall are never negative, so P + R is positive or 0). *)
Theorem C4_metrics_total_with_zero_defaults (cv_text critique : string)
    (ground_truth_issues : option (list string)) :
  (∃ c, calculate_section_coverage cv_text critique = Ok c
     ∧ let total := Coverage.total_sections_in_cv c in
       let covered := Coverage.sections_addressed_in_critique c in
       total = Py.count_if (λ kv, mentions (Py.lower cv_text) kv.2)
                 EXPECTED_CV_ELEMENTS
       ∧ covered = Py.count_if
                     (λ kv, mentions (Py.lower cv_text) kv.2
                            && mentions (Py.lower critique) kv.2)
                     EXPECTED_CV_ELEMENTS
       ∧ (0 < total ->
          Coverage.coverage_rate c = (Py.num covered / Py.num total)%Qc)
       ∧ (total = 0 -> Coverage.coverage_rate c = 0%Qc))
  ∧ (∃ d, calculate_issue_detection_metrics cv_text critique
            ground_truth_issues = Ok d
     ∧ let tp := Detection.true_positives d in
       let fp := Detection.false_positives d in
       let fn := Detection.false_negatives d in
       let p := Detection.precision d in
       let r := Detection.recall d in
       (0 < tp + fp -> p = (Py.num tp / Py.num (tp + fp))%Qc)
       ∧ (tp + fp = 0 -> p = 0%Qc)
       ∧ (0 < tp + fn -> r = (Py.num tp / Py.num (tp + fn))%Qc)
       ∧ (tp + fn = 0 -> r = 0%Qc)
       ∧ (0 ≤ p)%Qc ∧ (0 ≤ r)%Qc
       ∧ ((0 < p + r)%Qc ->
          Detection.f1_score d = (2 * (p * r) / (p + r))%Qc)
       ∧ ((p + r)%Qc = 0%Qc -> Detection.f1_score d = 0%Qc)).
Proof.
  split.
  - eexists. split; [apply calculate_section_coverage_eq|].
    cbn [Coverage.total_sections_in_cv Coverage.sections_addressed_in_critique
         Coverage.coverage_rate].
    repeat split.
    + intros Hpos. by destruct (Nat.ltb_spec 0
        (Py.count_if (λ kv, mentions (Py.lower cv_text) kv.2)
           EXPECTED_CV_ELEMENTS)); [|lia].
    + intros ->. reflexivity.
  - destruct (effective_ground_truth_total cv_text ground_truth_issues)
      as [G HG].
    eexists. split; [by apply calculate_issue_detection_metrics_eq|].
    cbn [Detection.true_positives Detection.false_positives
         Detection.false_negatives Detection.precision Detection.recall
         Detection.f1_score].
    unfold ratio_or_0, harmonic_or_0. repeat split.
    + intros Hpos. by apply Nat.ltb_lt in Hpos as ->.
    + by intros ->.
    + intros Hpos. by apply Nat.ltb_lt in Hpos as ->.
    + by intros ->.
    + apply ratio_or_0_nonneg.
    + apply ratio_or_0_nonneg.
    + intros Hpos. by destruct (decide _).
    + intros Hz. destruct (decide _) as [Hpos|]; [|done].
      rewrite Hz in Hpos. by destruct (Qclt_not_eq _ _ Hpos).
Qed.

(** C5: for the ground-truth set G and the detected set D of a scoring
    call, true_positives + false_negatives = |G| and
    true_positives + false_positives = |D|, for all inputs. *)
Theorem C5_confusion_counts_partition (cv_text critique : string)
    (ground_truth_issues : option (list string)) :
  ∃ d, calculate_issue_detection_metrics cv_text critique
         ground_truth_issues = Ok d
    ∧ Detection.true_positives d + Detection.false_negatives d
      = size (Py.set (Detection.ground_truth_issues d))
    ∧ Detection.true_positives d + Detection.false_positives d
      = size (Py.set (Detection.detected_issues d)).
Proof.
  destruct (effective_ground_truth_total cv_text ground_truth_issues)
    as [G HG].
  eexists. split; [by apply calculate_issue_detection_metrics_eq|].
  cbn [Detection.true_positives Detection.false_positives
       Detection.false_negatives Detection.ground_truth_issues
       Detection.detected_issues].
  split; [apply size_inter_diff|].
  rewrite (comm_L (∩)). apply size_inter_diff.
Qed.

(** C6: the list the detector derives from a document holds only
    vague_objective, no_metrics, buzzwords, length and formatting; typos,
    skill_organization and relevance are never in it, and this list is the
    ground truth of a scoring call that is given none. *)
Theorem C6_auto_ground_truth_categories (cv_text : string) :
  ∃ issues, _detect_cv_issues cv_text = Ok issues
    ∧ (∀ x, x ∈ issues ->
         x ∈ ["vague_objective"; "no_metrics"; "buzzwords"; "length";
              "formatting"])
    ∧ ("typos" ∉ issues)
    ∧ ("skill_organization" ∉ issues)
    ∧ ("relevance" ∉ issues)
    ∧ ∀ critique, ∃ d,
        calculate_issue_detection_metrics cv_text critique None = Ok d
        ∧ Detection.ground_truth_issues d = issues.
Proof.
  destruct (detect_cv_issues_total cv_text) as [issues Hissues].
  exists issues. split; [done|].
  assert (Hfive : ∀ x, x ∈ issues ->
            x ∈ ["vague_objective"; "no_metrics"; "buzzwords"; "length";
                 "formatting"]).
  { intros x. rewrite (detect_cv_issues_elem _ _ _ Hissues).
    rewrite !elem_of_cons. naive_solver. }
  split; [done|].
  repeat split.
  - intros Hin%Hfive. by apply (bool_decide_pack _) in Hin.
  - intros Hin%Hfive. by apply (bool_decide_pack _) in Hin.
  - intros Hin%Hfive. by apply (bool_decide_pack _) in Hin.
  - intros critique. eexists.
    split; [by apply calculate_issue_detection_metrics_eq|done].
Qed.

(** C7: the detector reports length exactly when the word count of the
    document is below 200 or above 1000; so it does for 50 and for 1500
    words, and does not for 500. *)
Theorem C7_length_flag (cv_text : string) :
  let word_count := length (Py.split cv_text) in
  ∃ issues, _detect_cv_issues cv_text = Ok issues
    ∧ ("length" ∈ issues ↔ word_count < 200 ∨ 1000 < word_count)
    ∧ (word_count = 50 -> "length" ∈ issues)
    ∧ (word_count = 1500 -> "length" ∈ issues)
    ∧ (word_count = 500 -> "length" ∉ issues).
Proof.
  intros word_count.
  destruct (detect_cv_issues_total cv_text) as [issues Hissues].
  exists issues. split; [done|].
  assert (Hiff : "length" ∈ issues ↔ word_count < 200 ∨ 1000 < word_count).
  { rewrite (detect_cv_issues_elem _ _ _ Hissues). fold word_count.
    split; [|by eauto 10].
    intros [[[=] _]|[[[=] _]|[[[=] _]|[[_ H]|[[=] _]]]]]. exact H. }
  split; [done|]. rewrite Hiff. repeat split; lia.
Qed.

(** C8: when the ground truth is not empty and the detected set equals
    it, the scorer returns precision = recall = F1 = 1. *)
Theorem C8_perfect_detection (cv_text critique : string)
    (ground_truth_issues : option (list string)) (G : list string) :
  effective_ground_truth cv_text ground_truth_issues = Ok G ->
  Py.set G ≠ ∅ ->
  Py.set (detect_in_critique (Py.lower critique)) = Py.set G ->
  ∃ d, calculate_issue_detection_metrics cv_text critique
         ground_truth_issues = Ok d
    ∧ Detection.ground_truth_issues d = G
    ∧ Detection.detected_issues d = detect_in_critique (Py.lower critique)
    ∧ Detection.precision d = 1%Qc
    ∧ Detection.recall d = 1%Qc
    ∧ Detection.f1_score d = 1%Qc.
Proof.
  intros HG Hne HD.
  eexists. split; [by apply calculate_issue_detection_metrics_eq|].
  cbn [Detection.ground_truth_issues Detection.detected_issues
       Detection.precision Detection.recall Detection.f1_score].
  split; [done|]. split; [done|].
  rewrite HD.
  assert (Hsize : 0 < size (Py.set G)).
  { apply Nat.neq_0_lt_0. intros Hz. by apply size_empty_inv, leibniz_equiv in Hz. }
  assert (Hdiff : Py.set G ∖ Py.set G = (∅ : gset string)) by set_solver.
  assert (Hint : Py.set G ∩ Py.set G = Py.set G) by set_solver.
  rewrite Hdiff, Hint, size_empty, Nat.add_0_r.
  assert (Hone : ratio_or_0 (size (Py.set G)) (size (Py.set G)) = 1%Qc).
  { unfold ratio_or_0. apply Nat.ltb_lt in Hsize as Hlt. rewrite Hlt.
    apply Qc_div_self. rewrite num_0_iff. lia. }
  rewrite Hone. split; [done|]. split; [done|].
  apply Qc_is_canon. by vm_compute.
Qed.

Lemma C8_perfect_detection_witness :
  ∃ d, calculate_issue_detection_metrics sample_cv critique_medium
         (Some ["vague_objective"; "no_metrics"]) = Ok d
    ∧ Detection.ground_truth_issues d = ["vague_objective"; "no_metrics"]
    ∧ Detection.detected_issues d
      = detect_in_critique (Py.lower critique_medium)
    ∧ Detection.precision d = 1%Qc
    ∧ Detection.recall d = 1%Qc
    ∧ Detection.f1_score d = 1%Qc.
Proof.
  apply (C8_perfect_detection sample_cv critique_medium
           (Some ["vague_objective"; "no_metrics"])
           ["vague_objective"; "no_metrics"]).
  - reflexivity.
  - apply (bool_decide_unpack _). vm_compute. exact I.
  - vm_compute. reflexivity.
Defined.

(** C9: on every table with at least one row, whatever numbers its F1
    column holds, the selection returns a row of the table whose F1 is
    the maximum of the column, and every row before it has a strictly
    smaller F1: among the rows that share the maximum, the first in
    insertion order is selected.  The F1 are compared as the numbers the
    table holds, so the statement covers the doubles the evaluator
    stores, whichever way they were rounded. *)
Theorem C9_best_model_is_first_max_f1 (df : list EvalRow.t) :
  df ≠ [] ->
  ∃ i best,
    best_model_row df = Ok best
    ∧ df !! i = Some best
    ∧ (∀ j row, df !! j = Some row ->
         (EvalRow.f1_score row ≤ EvalRow.f1_score best)%Qc)
    ∧ (∀ j row, j < i -> df !! j = Some row ->
         (EvalRow.f1_score row < EvalRow.f1_score best)%Qc).
Proof.
  intros Hne.
  assert (Hcol : Pandas.column EvalRow.f1_score df
                 = Ok (EvalRow.f1_score <$> df)) by by destruct df.
  destruct (idxmax_spec (EvalRow.f1_score <$> df))
    as (k & m & Hk & Hm & Hall & Hbefore).
  { by destruct df. }
  apply list_lookup_fmap_Some in Hm as (best & -> & Hbest).
  exists k, best. unfold best_model_row.
  rewrite Hcol. cbn [mbind result_bind]. rewrite Hk. cbn [mbind result_bind].
  unfold Pandas.loc. rewrite Hbest. split; [done|]. split; [done|]. split.
  - intros j row Hrow. rewrite Forall_forall in Hall. apply Hall.
    apply list_elem_of_fmap. exists row. split; [done|].
    by eapply list_elem_of_lookup_2.
  - intros j row Hj Hrow. apply (Hbefore j); [done|].
    by rewrite list_lookup_fmap, Hrow.
Qed.

Lemma C9_best_model_is_first_max_f1_witness :
  ∃ i best,
    best_model_row neighbouring_doubles_table = Ok best
    ∧ neighbouring_doubles_table !! i = Some best
    ∧ (∀ j row, neighbouring_doubles_table !! j = Some row ->
         (EvalRow.f1_score row ≤ EvalRow.f1_score best)%Qc)
    ∧ (∀ j row, j < i -> neighbouring_doubles_table !! j = Some row ->
         (EvalRow.f1_score row < EvalRow.f1_score best)%Qc).
Proof.
  apply (C9_best_model_is_first_max_f1 neighbouring_doubles_table).
  discriminate.
Defined.

(** C10: with a ground truth supplied by the caller, the result of the
    scorer is the same for any two documents. *)
Theorem C10_document_irrelevant_with_supplied_ground_truth
    (d1 d2 critique : string) (G : list string) :
  calculate_issue_detection_metrics d1 critique (Some G)
  = calculate_issue_detection_metrics d2 critique (Some G).
Proof.
  rewrite (calculate_issue_detection_metrics_eq d1 critique (Some G) G)
    by reflexivity.
  rewrite (calculate_issue_detection_metrics_eq d2 critique (Some G) G)
    by reflexivity.
  reflexivity.
Qed.

(** ** Further facts: text primitives *)

Lemma lower_app (a b : string) :
  Py.lower (a +:+ b) = Py.lower a +:+ Py.lower b.
Proof.
  induction a as [|c a IH]; [done|].
  rewrite str_app_cons. cbn [Py.lower]. by rewrite IH, str_app_cons.
Qed.

Lemma lower_char_idem (c : ascii) :
  Py.lower_char (Py.lower_char c) = Py.lower_char c.
Proof. destruct c as [[] [] [] [] [] [] [] []]; reflexivity. Qed.

Lemma lower_idem (s : string) : Py.lower (Py.lower s) = Py.lower s.
Proof.
  induction s as [|c s IH]; [done|].
  cbn [Py.lower]. by rewrite lower_char_idem, IH.
Qed.

Lemma startswith_spec (kw s : string) :
  Py.startswith kw s = true ↔ ∃ post, s = kw +:+ post.
Proof.
  revert s. induction kw as [|a kw IH]; intros s; cbn [Py.startswith].
  - split; [|done]. intros _. by exists s.
  - destruct s as [|b s].
    + split; [done|]. intros [post Hpost]. by rewrite str_app_cons in Hpost.
    + rewrite andb_true_iff, Ascii.eqb_eq, IH. split.
      * intros [-> [post ->]]. by exists post.
      * intros [post Hpost]. rewrite str_app_cons in Hpost.
        injection Hpost as -> ->. split; [done|]. by exists post.
Qed.

(** [kw in s] holds exactly when [s] is [pre + kw + post]. *)
Lemma contains_spec (kw s : string) :
  Py.contains kw s = true ↔ ∃ pre post, s = pre +:+ kw +:+ post.
Proof.
  induction s as [|c s IH]; cbn [Py.contains].
  - rewrite orb_false_r, startswith_spec. split.
    + intros [post Hpost]. by exists "", post.
    + intros (pre & post & Hs). symmetry in Hs.
      apply str_app_nil_inv in Hs as [-> Hs]. by exists post.
  - rewrite orb_true_iff, startswith_spec, IH. split.
    + intros [[post Hpost]|(pre & post & ->)].
      * by exists "", post.
      * by exists (String c pre), post.
    + intros (pre & post & Hs). symmetry in Hs.
      apply str_app_cons_inv in Hs as [[-> Hs]|(pre' & -> & ->)].
      * left. by exists post.
      * right. by exists pre', post.
Qed.

Lemma contains_app_l (kw a b : string) :
  Py.contains kw a = true -> Py.contains kw (a +:+ b) = true.
Proof.
  rewrite !contains_spec. intros (pre & post & ->).
  exists pre, (post +:+ b). by rewrite !str_app_assoc.
Qed.

Lemma contains_app_r (kw a b : string) :
  Py.contains kw b = true -> Py.contains kw (a +:+ b) = true.
Proof.
  rewrite !contains_spec. intros (pre & post & ->).
  exists (a +:+ pre), post. by rewrite !str_app_assoc.
Qed.

Lemma mentions_app_l (a b : string) (keywords : list string) :
  mentions a keywords = true -> mentions (a +:+ b) keywords = true.
Proof.
  unfold mentions, Py.any. rewrite !existsb_exists.
  intros (kw & Hin & Hkw). exists kw. split; [done|]. by apply contains_app_l.
Qed.

Lemma mentions_app_r (a b : string) (keywords : list string) :
  mentions b keywords = true -> mentions (a +:+ b) keywords = true.
Proof.
  unfold mentions, Py.any. rewrite !existsb_exists.
  intros (kw & Hin & Hkw). exists kw. split; [done|]. by apply contains_app_r.
Qed.

(** ** Further facts: numbers *)

Lemma num_add (a b : nat) : Py.num (a + b) = (Py.num a + Py.num b)%Qc.
Proof. unfold Py.num. by rewrite Nat2Z.inj_add, Z2Qc_inj_add. Qed.

Lemma num_le (a b : nat) : a ≤ b -> (Py.num a ≤ Py.num b)%Qc.
Proof.
  intros Hab. unfold Py.num.
  apply (proj1 (Z2Qc_inj_le (Z.of_nat a) (Z.of_nat b))). lia.
Qed.

Lemma ratio_or_0_le_1 (a b : nat) : a ≤ b -> (ratio_or_0 a b ≤ 1)%Qc.
Proof.
  intros Hab. unfold ratio_or_0. destruct (Nat.ltb_spec 0 b) as [Hb|_]; [|done].
  assert (Hpos : (0 < Py.num b)%Qc) by by apply num_pos.
  apply (Qcmult_le_mono_pos_r _ _ (Py.num b) Hpos).
  rewrite Qcmult_1_l. unfold Qcdiv. rewrite <- Qcmult_assoc.
  rewrite (Qcmult_comm (/ Py.num b)), Qcmult_inv_r, Qcmult_1_r.
  - by apply num_le.
  - intros Hz. rewrite Hz in Hpos. by apply Qclt_not_eq in Hpos.
Qed.

Lemma ratio_or_0_mono (a a' b : nat) :
  a ≤ a' -> (ratio_or_0 a b ≤ ratio_or_0 a' b)%Qc.
Proof.
  intros Haa. unfold ratio_or_0. destruct (Nat.ltb_spec 0 b) as [Hb|_]; [|done].
  unfold Qcdiv. apply Qcmult_le_mono_nonneg_r; [|by apply num_le].
  by apply Qclt_le_weak, Qcinv_pos, num_pos.
Qed.

Lemma ratio_or_0_pos (a b : nat) : 0 < a -> 0 < b -> (0 < ratio_or_0 a b)%Qc.
Proof.
  intros Ha Hb. unfold ratio_or_0. apply Nat.ltb_lt in Hb as Hlt. rewrite Hlt.
  unfold Qcdiv. apply Qcmult_pos_pos; [by apply num_pos|].
  by apply Qcinv_pos, num_pos.
Qed.

Lemma ratio_or_0_zero (b : nat) : ratio_or_0 0 b = 0%Qc.
Proof.
  unfold ratio_or_0. destruct (0 <? b); [|done].
  assert (H0 : Py.num 0 = 0%Qc) by by apply num_0_iff.
  unfold Qcdiv. rewrite H0. apply Qcmult_0_l.
Qed.

(** F1 from the counts: [2 TP / (2 TP + FP + FN)]. *)
Lemma harmonic_of_ratios (tp fp fn : nat) :
  harmonic_or_0 (ratio_or_0 tp (tp + fp)) (ratio_or_0 tp (tp + fn))
  = ratio_or_0 (2 * tp) (2 * tp + fp + fn).
Proof.
  destruct tp as [|tp].
  - rewrite !ratio_or_0_zero. by vm_compute.
  - set (n := S tp).
    assert (Hn : 0 < n) by (unfold n; lia).
    assert (HA : (0 < Py.num n)%Qc) by by apply num_pos.
    assert (HB : (0 ≤ Py.num fp)%Qc) by apply num_nonneg.
    assert (HC : (0 ≤ Py.num fn)%Qc) by apply num_nonneg.
    unfold harmonic_or_0.
    assert (Hsum : (0 < ratio_or_0 n (n + fp) + ratio_or_0 n (n + fn))%Qc).
    { apply Qcplus_pos_pos; apply ratio_or_0_pos; lia. }
    destruct (decide _) as [_|Hno]; [|done].
    unfold ratio_or_0.
    assert (H1 : (0 <? n + fp) = true) by (apply Nat.ltb_lt; lia).
    assert (H2 : (0 <? n + fn) = true) by (apply Nat.ltb_lt; lia).
    assert (H3 : (0 <? 2 * n + fp + fn) = true) by (apply Nat.ltb_lt; lia).
    rewrite H1, H2, H3.
    replace (2 * n) with (n + n) by lia. rewrite !num_add.
    clear Hsum. revert HA HB HC.
    generalize (Py.num n) (Py.num fp) (Py.num fn). intros A B C HA HB HC.
    assert (HAB : (0 < A + B)%Qc) by by apply Qcplus_pos_nonneg.
    assert (HAC : (0 < A + C)%Qc) by by apply Qcplus_pos_nonneg.
    assert (HABC : (0 < A + A + B + C)%Qc).
    { apply Qcplus_pos_nonneg; [|done]. apply Qcplus_pos_nonneg; [|done].
      by apply Qcplus_pos_pos. }
    assert (Hne : ∀ q : Qc, (0 < q)%Qc -> q ≠ 0%Qc).
    { intros q Hq Hz. rewrite Hz in Hq. by apply Qclt_not_eq in Hq. }
    field. split; [by apply Hne|]. split; [by apply Hne|].
    split; [by apply Hne|]. apply Hne.
    replace (A * (A + C) + A * (A + B))%Qc with (A * (A + A + B + C))%Qc
      by ring.
    by apply Qcmult_pos_pos.
Qed.

(** ** Further facts: the detected list *)

Lemma detect_fold_filter (table : Py.dict (list string)) (text : string)
    (acc : list string) :
  fold_left (fun detected '(issue_category, keywords) =>
               append_if (mentions text keywords) issue_category detected)
    table acc
  = acc ++ (List.filter (λ kv, mentions text kv.2) table).*1.
Proof.
  revert acc. induction table as [|[k kws] table IH]; intros acc.
  - cbn. by rewrite app_nil_r.
  - cbn [fold_left List.filter snd]. rewrite IH. unfold append_if.
    destruct (mentions text kws); [|done].
    rewrite fmap_cons. cbn [fst]. by rewrite <- app_assoc.
Qed.

Lemma filter_keys_sublist {V} (p : string * V -> bool) (table : Py.dict V) :
  (List.filter p table).*1 `sublist_of` table.*1.
Proof.
  induction table as [|kv table IH]; [done|].
  cbn [List.filter]. rewrite fmap_cons.
  destruct (p kv); [rewrite fmap_cons; by apply sublist_skip|].
  by apply sublist_cons.
Qed.

Lemma detect_in_critique_sublist (text : string) :
  detect_in_critique text `sublist_of` issue_taxonomy.
Proof.
  unfold detect_in_critique. rewrite detect_fold_filter, app_nil_l.
  apply filter_keys_sublist.
Qed.

Lemma detect_in_critique_NoDup (text : string) :
  NoDup (detect_in_critique text).
Proof.
  apply (sublist_NoDup _ issue_taxonomy).
  - apply COMMON_CV_ISSUES_NoDup.
  - apply detect_in_critique_sublist.
Qed.

Lemma detect_in_critique_app (a b : string) :
  detect_in_critique a ⊆ detect_in_critique (a +:+ b).
Proof.
  intros x. rewrite !detect_in_critique_elem.
  intros (kws & Hin & Hm). exists kws. split; [done|]. by apply mentions_app_l.
Qed.

Lemma detect_in_critique_empty : detect_in_critique "" = [].
Proof. by vm_compute. Qed.

(** ** Further properties of [calculate_issue_detection_metrics] *)

(** X1: precision, recall and F1 lie between 0 and 1 on every input. *)
Theorem X1_detection_metrics_within_unit_interval (cv_text critique : string)
    (ground_truth_issues : option (list string)) :
  ∃ d, calculate_issue_detection_metrics cv_text critique
         ground_truth_issues = Ok d
    ∧ (0 ≤ Detection.precision d)%Qc ∧ (Detection.precision d ≤ 1)%Qc
    ∧ (0 ≤ Detection.recall d)%Qc ∧ (Detection.recall d ≤ 1)%Qc
    ∧ (0 ≤ Detection.f1_score d)%Qc ∧ (Detection.f1_score d ≤ 1)%Qc.
Proof.
  destruct (effective_ground_truth_total cv_text ground_truth_issues)
    as [G HG].
  eexists. split; [by apply calculate_issue_detection_metrics_eq|].
  cbn [Detection.precision Detection.recall Detection.f1_score].
  rewrite harmonic_of_ratios.
  split; [apply ratio_or_0_nonneg|]. split; [apply ratio_or_0_le_1; lia|].
  split; [apply ratio_or_0_nonneg|]. split; [apply ratio_or_0_le_1; lia|].
  split; [apply ratio_or_0_nonneg|]. apply ratio_or_0_le_1; lia.
Qed.

(** X2: precision, recall and F1 vanish together: all three are 0
    when the critique detects no issue of the ground truth (TP = 0), and
    all three are positive when it detects at least one. *)
Theorem X2_scores_vanish_iff_no_true_positive (cv_text critique : string)
    (ground_truth_issues : option (list string)) :
  ∃ d, calculate_issue_detection_metrics cv_text critique
         ground_truth_issues = Ok d
    ∧ let tp := Detection.true_positives d in
      (tp = 0 <->
         Detection.precision d = 0%Qc ∧ Detection.recall d = 0%Qc
         ∧ Detection.f1_score d = 0%Qc)
      ∧ (0 < tp <->
         (0 < Detection.precision d)%Qc ∧ (0 < Detection.recall d)%Qc
         ∧ (0 < Detection.f1_score d)%Qc).
Proof.
  destruct (effective_ground_truth_total cv_text ground_truth_issues)
    as [G HG].
  eexists. split; [by apply calculate_issue_detection_metrics_eq|].
  cbn [Detection.precision Detection.recall Detection.f1_score
       Detection.true_positives Detection.false_positives
       Detection.false_negatives].
  rewrite harmonic_of_ratios.
  set (tp := size (Py.set G ∩ Py.set (detect_in_critique (Py.lower critique)))).
  set (fp := size (Py.set (detect_in_critique (Py.lower critique)) ∖ Py.set G)).
  set (fn := size (Py.set G ∖ Py.set (detect_in_critique (Py.lower critique)))).
  assert (Hpos : 0 < tp ->
            (0 < ratio_or_0 tp (tp + fp))%Qc ∧ (0 < ratio_or_0 tp (tp + fn))%Qc
            ∧ (0 < ratio_or_0 (2 * tp) (2 * tp + fp + fn))%Qc).
  { intros H. repeat split; apply ratio_or_0_pos; lia. }
  assert (Hzero : tp = 0 ->
            ratio_or_0 tp (tp + fp) = 0%Qc ∧ ratio_or_0 tp (tp + fn) = 0%Qc
            ∧ ratio_or_0 (2 * tp) (2 * tp + fp + fn) = 0%Qc).
  { intros ->. by rewrite !ratio_or_0_zero. }
  split; (split; [done|]).
  - intros (Hp & _). destruct (Nat.eq_dec tp 0) as [|Hne]; [done|].
    destruct Hpos as (Hp' & _); [lia|]. rewrite Hp in Hp'.
    by apply Qclt_not_eq in Hp'.
  - intros (Hp & _). destruct (Nat.eq_dec tp 0) as [Hz|Hne]; [|lia].
    destruct (Hzero Hz) as (Hp' & _). rewrite Hp' in Hp.
    by apply Qclt_not_eq in Hp.
Qed.

(** X3: a critique in which no keyword of the taxonomy occurs (the empty
    critique is one) detects nothing: TP = FP = 0, every ground-truth
    category is a false negative, and precision, recall and F1 are 0. *)
Theorem X3_silent_critique_scores_zero (cv_text critique : string)
    (ground_truth_issues : option (list string)) :
  detect_in_critique (Py.lower critique) = [] ->
  ∃ d, calculate_issue_detection_metrics cv_text critique
         ground_truth_issues = Ok d
    ∧ Detection.detected_issues d = []
    ∧ Detection.true_positives d = 0
    ∧ Detection.false_positives d = 0
    ∧ Detection.false_negatives d
      = size (Py.set (Detection.ground_truth_issues d))
    ∧ Detection.precision d = 0%Qc
    ∧ Detection.recall d = 0%Qc
    ∧ Detection.f1_score d = 0%Qc.
Proof.
  intros Hsilent.
  destruct (effective_ground_truth_total cv_text ground_truth_issues)
    as [G HG].
  eexists. split; [by apply calculate_issue_detection_metrics_eq|].
  cbn [Detection.precision Detection.recall Detection.f1_score
       Detection.true_positives Detection.false_positives
       Detection.false_negatives Detection.detected_issues
       Detection.ground_truth_issues].
  rewrite harmonic_of_ratios, Hsilent.
  change (Py.set []) with (∅ : gset string).
  assert (H1 : Py.set G ∩ (∅ : gset string) = ∅) by set_solver.
  assert (H2 : (∅ : gset string) ∖ Py.set G = ∅) by set_solver.
  assert (H3 : Py.set G ∖ (∅ : gset string) = Py.set G) by set_solver.
  rewrite !H1, !H2, !H3, !size_empty. cbn [Nat.mul Nat.add].
  by rewrite !ratio_or_0_zero.
Qed.

Lemma X3_silent_critique_scores_zero_witness :
  ∃ d, calculate_issue_detection_metrics sample_cv "" None = Ok d
    ∧ Detection.detected_issues d = []
    ∧ Detection.true_positives d = 0
    ∧ Detection.false_positives d = 0
    ∧ Detection.false_negatives d
      = size (Py.set (Detection.ground_truth_issues d))
    ∧ Detection.precision d = 0%Qc
    ∧ Detection.recall d = 0%Qc
    ∧ Detection.f1_score d = 0%Qc.
Proof.
  apply (X3_silent_critique_scores_zero sample_cv "" None).
  vm_compute. reflexivity.
Defined.

(** X4: with an empty ground-truth list supplied, every detected category
    is a false positive and recall, precision and F1 are 0, whatever the
    critique says. *)
Theorem X4_empty_ground_truth_scores_zero (cv_text critique : string) :
  ∃ d, calculate_issue_detection_metrics cv_text critique (Some []) = Ok d
    ∧ Detection.true_positives d = 0
    ∧ Detection.false_negatives d = 0
    ∧ Detection.false_positives d = length (Detection.detected_issues d)
    ∧ Detection.precision d = 0%Qc
    ∧ Detection.recall d = 0%Qc
    ∧ Detection.f1_score d = 0%Qc.
Proof.
  eexists. split; [by apply calculate_issue_detection_metrics_eq|].
  cbn [Detection.precision Detection.recall Detection.f1_score
       Detection.true_positives Detection.false_positives
       Detection.false_negatives Detection.detected_issues].
  rewrite harmonic_of_ratios.
  change (Py.set []) with (∅ : gset string).
  set (D := Py.set (detect_in_critique (Py.lower critique))).
  assert (H1 : (∅ : gset string) ∩ D = ∅) by set_solver.
  assert (H2 : D ∖ (∅ : gset string) = D) by set_solver.
  assert (H3 : (∅ : gset string) ∖ D = ∅) by set_solver.
  rewrite !H1, !H2, !H3, !size_empty. cbn [Nat.mul Nat.add].
  rewrite !ratio_or_0_zero. repeat split.
  unfold D, Py.set. apply size_list_to_set, detect_in_critique_NoDup.
Qed.

(** X5: the detected list names each category at most once, in the order
    of the taxonomy, so its length is TP + FP and never exceeds 8. *)
Theorem X5_detected_list_follows_taxonomy (cv_text critique : string)
    (ground_truth_issues : option (list string)) :
  ∃ d, calculate_issue_detection_metrics cv_text critique
         ground_truth_issues = Ok d
    ∧ NoDup (Detection.detected_issues d)
    ∧ Detection.detected_issues d `sublist_of` issue_taxonomy
    ∧ length (Detection.detected_issues d)
      = Detection.true_positives d + Detection.false_positives d
    ∧ length (Detection.detected_issues d) ≤ 8.
Proof.
  destruct (effective_ground_truth_total cv_text ground_truth_issues)
    as [G HG].
  eexists. split; [by apply calculate_issue_detection_metrics_eq|].
  cbn [Detection.detected_issues Detection.true_positives
       Detection.false_positives].
  split; [apply detect_in_critique_NoDup|].
  split; [apply detect_in_critique_sublist|]. split.
  - rewrite (comm_L (∩)), size_inter_diff. unfold Py.set. symmetry.
    apply size_list_to_set, detect_in_critique_NoDup.
  - apply (sublist_length _ issue_taxonomy), detect_in_critique_sublist.
Qed.

(** X6: only the set of the supplied ground truth matters: two lists with
    the same elements, in any order and with any repetitions, give the
    same counts, metrics, missed and extra sets. *)
Theorem X6_ground_truth_order_and_repetition_irrelevant
    (cv_text critique : string) (G1 G2 : list string) :
  Py.set G1 = Py.set G2 ->
  ∃ d1 d2,
    calculate_issue_detection_metrics cv_text critique (Some G1) = Ok d1
    ∧ calculate_issue_detection_metrics cv_text critique (Some G2) = Ok d2
    ∧ Detection.true_positives d1 = Detection.true_positives d2
    ∧ Detection.false_positives d1 = Detection.false_positives d2
    ∧ Detection.false_negatives d1 = Detection.false_negatives d2
    ∧ Detection.precision d1 = Detection.precision d2
    ∧ Detection.recall d1 = Detection.recall d2
    ∧ Detection.f1_score d1 = Detection.f1_score d2
    ∧ Detection.detected_issues d1 = Detection.detected_issues d2
    ∧ Detection.missed_issues d1 = Detection.missed_issues d2
    ∧ Detection.extra_mentions d1 = Detection.extra_mentions d2.
Proof.
  intros Hset. eexists. eexists.
  split; [by apply calculate_issue_detection_metrics_eq|].
  split; [by apply calculate_issue_detection_metrics_eq|].
  cbn [Detection.precision Detection.recall Detection.f1_score
       Detection.true_positives Detection.false_positives
       Detection.false_negatives Detection.detected_issues
       Detection.missed_issues Detection.extra_mentions].
  by rewrite Hset.
Qed.

Lemma X6_ground_truth_order_and_repetition_irrelevant_witness :
  ∃ d1 d2,
    calculate_issue_detection_metrics sample_cv critique_medium
      (Some ["length"; "no_metrics"]) = Ok d1
    ∧ calculate_issue_detection_metrics sample_cv critique_medium
        (Some ["no_metrics"; "length"; "no_metrics"]) = Ok d2
    ∧ Detection.true_positives d1 = Detection.true_positives d2
    ∧ Detection.false_positives d1 = Detection.false_positives d2
    ∧ Detection.false_negatives d1 = Detection.false_negatives d2
    ∧ Detection.precision d1 = Detection.precision d2
    ∧ Detection.recall d1 = Detection.recall d2
    ∧ Detection.f1_score d1 = Detection.f1_score d2
    ∧ Detection.detected_issues d1 = Detection.detected_issues d2
    ∧ Detection.missed_issues d1 = Detection.missed_issues d2
    ∧ Detection.extra_mentions d1 = Detection.extra_mentions d2.
Proof.
  apply (X6_ground_truth_order_and_repetition_irrelevant sample_cv
           critique_medium ["length"; "no_metrics"]
           ["no_metrics"; "length"; "no_metrics"]).
  vm_compute. reflexivity.
Defined.

(** X7: the scorer reads the critique without regard to case: scoring the
    lowercased critique gives the same result as scoring the critique. *)
Theorem X7_detection_ignores_case_of_critique (cv_text critique : string)
    (ground_truth_issues : option (list string)) :
  calculate_issue_detection_metrics cv_text (Py.lower critique)
    ground_truth_issues
  = calculate_issue_detection_metrics cv_text critique ground_truth_issues.
Proof.
  destruct (effective_ground_truth_total cv_text ground_truth_issues)
    as [G HG].
  rewrite !(calculate_issue_detection_metrics_eq _ _ _ G HG).
  by rewrite lower_idem.
Qed.

(** X8: text appended to a critique can only add detected categories:
    true positives and recall do not decrease, false negatives do not
    increase. *)
Theorem X8_appending_to_critique_never_lowers_recall
    (cv_text critique more : string)
    (ground_truth_issues : option (list string)) :
  ∃ d1 d2,
    calculate_issue_detection_metrics cv_text critique
      ground_truth_issues = Ok d1
    ∧ calculate_issue_detection_metrics cv_text (critique +:+ more)
        ground_truth_issues = Ok d2
    ∧ Detection.detected_issues d1 ⊆ Detection.detected_issues d2
    ∧ Detection.true_positives d1 ≤ Detection.true_positives d2
    ∧ Detection.false_negatives d2 ≤ Detection.false_negatives d1
    ∧ (Detection.recall d1 ≤ Detection.recall d2)%Qc.
Proof.
  destruct (effective_ground_truth_total cv_text ground_truth_issues)
    as [G HG].
  eexists. eexists.
  split; [by apply calculate_issue_detection_metrics_eq|].
  split; [by apply calculate_issue_detection_metrics_eq|].
  cbn [Detection.recall Detection.true_positives Detection.false_negatives
       Detection.detected_issues].
  rewrite lower_app.
  set (D1 := detect_in_critique (Py.lower critique)).
  set (D2 := detect_in_critique (Py.lower critique +:+ Py.lower more)).
  assert (Hsub : D1 ⊆ D2) by apply detect_in_critique_app.
  assert (Hset : Py.set D1 ⊆ Py.set D2).
  { unfold Py.set. intros x. rewrite !elem_of_list_to_set. apply Hsub. }
  assert (Htp : size (Py.set G ∩ Py.set D1) ≤ size (Py.set G ∩ Py.set D2)).
  { apply subseteq_size. set_solver. }
  assert (Hfn : size (Py.set G ∖ Py.set D2) ≤ size (Py.set G ∖ Py.set D1)).
  { apply subseteq_size. set_solver. }
  split; [done|]. split; [done|]. split; [done|].
  rewrite !size_inter_diff. by apply ratio_or_0_mono.
Qed.

(** ** Further properties of [_detect_cv_issues] *)

Lemma count_if_ge_2 {A} (p : A -> bool) (l : list A) :
  NoDup l ->
  2 ≤ Py.count_if p l
  ↔ ∃ x y, x ≠ y ∧ x ∈ l ∧ y ∈ l ∧ p x = true ∧ p y = true.
Proof.
  unfold Py.count_if. intros Hnd. split.
  - intros Hlen.
    destruct (List.filter p l) as [|x [|y rest]] eqn:Hf;
      [cbn in Hlen; lia..|].
    assert (Hx : x ∈ List.filter p l) by (rewrite Hf; left).
    assert (Hy : y ∈ List.filter p l) by (rewrite Hf; right; left).
    apply list_elem_of_In, filter_In in Hx as [Hx Hpx].
    apply list_elem_of_In, filter_In in Hy as [Hy Hpy].
    exists x, y. rewrite !list_elem_of_In. split; [|done].
    assert (Hnd' : NoDup (List.filter p l)).
    { apply NoDup_ListNoDup, List.NoDup_filter. by apply NoDup_ListNoDup. }
    rewrite Hf in Hnd'. apply NoDup_cons in Hnd' as [Hnotin _].
    intros ->. apply Hnotin. left.
  - intros (x & y & Hne & Hx & Hy & Hpx & Hpy).
    assert (Hsub : [x; y] ⊆+ List.filter p l).
    { apply NoDup_submseteq.
      - apply NoDup_cons. split; [|apply NoDup_singleton].
        rewrite list_elem_of_singleton. done.
      - intros z. rewrite !elem_of_cons, elem_of_nil, list_elem_of_In,
          filter_In, <- !list_elem_of_In.
        intros [->|[->|[]]]; done. }
    by apply submseteq_length in Hsub.
Qed.

Lemma detect_cv_issues_sublist (cv_text : string) (issues : list string) :
  _detect_cv_issues cv_text = Ok issues ->
  issues `sublist_of`
    ["vague_objective"; "no_metrics"; "buzzwords"; "length"; "formatting"].
Proof.
  unfold _detect_cv_issues. rewrite getitem_skills. cbn [mbind result_bind].
  rewrite getitem_experience. cbn [mbind result_bind].
  unfold mret, result_ret.
  generalize (Py.any (λ kw, Py.contains kw (Py.lower cv_text))
                ["seeking"; "looking for"; "opportunity"]).
  generalize (Py.any (λ kw, Py.contains kw (Py.lower cv_text))
                ["specific"; "specialize"; "expert in"]).
  generalize (Py.any (λ kw, Py.contains kw (Py.lower cv_text))
                ["skills"; "technical skills"; "competencies"; "expertise"]).
  generalize (Py.any (λ kw, Py.contains kw (Py.lower cv_text))
                ["experience"; "work history"; "employment";
                 "professional experience"]).
  generalize (Re.search metrics_pattern cv_text).
  generalize (2 <=? Py.count_if (fun bw => Py.contains bw (Py.lower cv_text))
                      ["synergy"; "innovative"; "dynamic"; "results-driven";
                       "team player"; "hard worker"]).
  generalize (length (Py.split cv_text) <? 200).
  generalize (1000 <? length (Py.split cv_text)).
  intros b1 b2 b3 b4 b5 b6 b7 b8 <-%Ok_inj.
  destruct b1, b2, b3, b4, b5, b6, b7, b8;
    cbn [append_if negb orb app];
    repeat first [apply sublist_nil | apply sublist_skip | apply sublist_cons].
Qed.

Lemma mentions_true_iff (text : string) (keywords : list string) :
  mentions text keywords = true
  ↔ ∃ kw, kw ∈ keywords ∧ Py.contains kw text = true.
Proof.
  unfold mentions, Py.any. rewrite existsb_exists.
  by setoid_rewrite list_elem_of_In.
Qed.

Lemma mentions_false_iff (text : string) (keywords : list string) :
  mentions text keywords = false
  ↔ ∀ kw, kw ∈ keywords -> Py.contains kw text = false.
Proof.
  rewrite <- not_true_iff_false, mentions_true_iff. split.
  - intros Hno kw Hin. apply not_true_iff_false. intros Hkw. apply Hno. eauto.
  - intros Hall (kw & Hin & Hkw). by rewrite (Hall kw Hin) in Hkw.
Qed.

Lemma contains_app_kw_r (a b s : string) :
  Py.contains (a +:+ b) s = true -> Py.contains b s = true.
Proof.
  rewrite !contains_spec. intros (pre & post & ->).
  exists (pre +:+ a), post. by rewrite !str_app_assoc.
Qed.

(** X9: vague_objective is reported exactly when the lowercased document
    contains one of "seeking", "looking for", "opportunity" and none of
    "specific", "specialize", "expert in". *)
Theorem X9_vague_objective_rule (cv_text : string) :
  ∃ issues, _detect_cv_issues cv_text = Ok issues
    ∧ ("vague_objective" ∈ issues
       ↔ (∃ w, w ∈ ["seeking"; "looking for"; "opportunity"]
               ∧ Py.contains w (Py.lower cv_text) = true)
         ∧ (∀ w, w ∈ ["specific"; "specialize"; "expert in"] ->
                 Py.contains w (Py.lower cv_text) = false)).
Proof.
  destruct (detect_cv_issues_total cv_text) as [issues Hissues].
  exists issues. split; [done|].
  rewrite (detect_cv_issues_elem _ _ _ Hissues).
  rewrite <- mentions_true_iff, <- mentions_false_iff.
  split; [|by eauto 10].
  intros [[_ H]|[[[=] _]|[[[=] _]|[[[=] _]|[[=] _]]]]]. exact H.
Qed.

(** X10: buzzwords is reported exactly when two different entries of the
    buzzword list occur in the lowercased document; how often one entry
    occurs does not count. *)
Theorem X10_buzzwords_rule (cv_text : string) :
  let buzzwords :=
    ["synergy"; "innovative"; "dynamic"; "results-driven"; "team player";
     "hard worker"] in
  ∃ issues, _detect_cv_issues cv_text = Ok issues
    ∧ ("buzzwords" ∈ issues
       ↔ ∃ b1 b2, b1 ≠ b2 ∧ b1 ∈ buzzwords ∧ b2 ∈ buzzwords
           ∧ Py.contains b1 (Py.lower cv_text) = true
           ∧ Py.contains b2 (Py.lower cv_text) = true).
Proof.
  intros buzzwords.
  destruct (detect_cv_issues_total cv_text) as [issues Hissues].
  exists issues. split; [done|].
  rewrite (detect_cv_issues_elem _ _ _ Hissues).
  assert (Hnd : NoDup buzzwords)
    by (apply (bool_decide_unpack _); by vm_compute).
  rewrite <- (count_if_ge_2 (λ bw, Py.contains bw (Py.lower cv_text))
                buzzwords Hnd).
  split; [|by eauto 10].
  intros [[[=] _]|[[[=] _]|[[_ H]|[[[=] _]|[[=] _]]]]]. exact H.
Qed.

(** X11: formatting is reported exactly when the lowercased document
    contains none of "skills", "competencies", "expertise", or none of
    "experience", "work history", "employment"; the keywords "technical
    skills" and "professional experience" of the table add nothing. *)
Theorem X11_formatting_rule (cv_text : string) :
  ∃ issues, _detect_cv_issues cv_text = Ok issues
    ∧ ("formatting" ∈ issues
       ↔ (∀ w, w ∈ ["skills"; "competencies"; "expertise"] ->
               Py.contains w (Py.lower cv_text) = false)
         ∨ (∀ w, w ∈ ["experience"; "work history"; "employment"] ->
                 Py.contains w (Py.lower cv_text) = false)).
Proof.
  destruct (detect_cv_issues_total cv_text) as [issues Hissues].
  exists issues. split; [done|].
  rewrite (detect_cv_issues_elem _ _ _ Hissues).
  assert (Hskills :
    mentions (Py.lower cv_text)
      ["skills"; "technical skills"; "competencies"; "expertise"] = false
    ↔ ∀ w, w ∈ ["skills"; "competencies"; "expertise"] ->
           Py.contains w (Py.lower cv_text) = false).
  { rewrite mentions_false_iff. split.
    - intros H w Hw. apply H. set_solver.
    - intros H w Hw.
      apply elem_of_cons in Hw as [->|Hw]; [apply H; set_solver|].
      apply elem_of_cons in Hw as [->|Hw]; [|apply H; set_solver].
      apply not_true_iff_false. intros Hc.
      apply (contains_app_kw_r "technical " "skills") in Hc.
      rewrite H in Hc; [done|set_solver]. }
  assert (Hexp :
    mentions (Py.lower cv_text)
      ["experience"; "work history"; "employment"; "professional experience"]
    = false
    ↔ ∀ w, w ∈ ["experience"; "work history"; "employment"] ->
           Py.contains w (Py.lower cv_text) = false).
  { rewrite mentions_false_iff. split.
    - intros H w Hw. apply H. set_solver.
    - intros H w Hw.
      apply elem_of_cons in Hw as [->|Hw]; [apply H; set_solver|].
      apply elem_of_cons in Hw as [->|Hw]; [apply H; set_solver|].
      apply elem_of_cons in Hw as [->|Hw]; [apply H; set_solver|].
      apply list_elem_of_singleton in Hw as ->.
      apply not_true_iff_false. intros Hc.
      apply (contains_app_kw_r "professional " "experience") in Hc.
      rewrite H in Hc; [done|set_solver]. }
  rewrite <- Hskills, <- Hexp. split; [|by eauto 10].
  intros [[[=] _]|[[[=] _]|[[[=] _]|[[[=] _]|[_ H]]]]]. exact H.
Qed.

(** X12: the detector's list names each category at most once, in the
    order vague_objective, no_metrics, buzzwords, length, formatting; so
    it has at most 5 entries, and a scoring call that is given no ground
    truth has TP + FN equal to the length of the list. *)
Theorem X12_auto_ground_truth_is_duplicate_free (cv_text : string) :
  ∃ issues, _detect_cv_issues cv_text = Ok issues
    ∧ issues `sublist_of`
        ["vague_objective"; "no_metrics"; "buzzwords"; "length"; "formatting"]
    ∧ NoDup issues
    ∧ length issues ≤ 5
    ∧ ∀ critique, ∃ d,
        calculate_issue_detection_metrics cv_text critique None = Ok d
        ∧ Detection.true_positives d + Detection.false_negatives d
          = length issues.
Proof.
  destruct (detect_cv_issues_total cv_text) as [issues Hissues].
  exists issues. split; [done|].
  assert (Hsub := detect_cv_issues_sublist _ _ Hissues).
  assert (Hnd : NoDup issues).
  { eapply sublist_NoDup; [|exact Hsub].
    apply (bool_decide_unpack _). by vm_compute. }
  split; [done|]. split; [done|].
  split; [by apply sublist_length in Hsub|].
  intros critique. eexists.
  split; [by apply calculate_issue_detection_metrics_eq|].
  cbn [Detection.true_positives Detection.false_negatives].
  rewrite size_inter_diff. unfold Py.set. by apply size_list_to_set.
Qed.

(** X13: the detector returns the empty list exactly for a document of
    200 to 1000 words that has a metric pattern, fewer than two
    buzzwords, a skills and an experience keyword, and no unqualified
    "seeking" phrase. *)
Theorem X13_document_without_issues (cv_text : string) :
  ∃ issues, _detect_cv_issues cv_text = Ok issues
    ∧ (issues = []
       ↔ (mentions (Py.lower cv_text)
            ["seeking"; "looking for"; "opportunity"] = true ->
          mentions (Py.lower cv_text)
            ["specific"; "specialize"; "expert in"] = true)
         ∧ contains_regex_metric_phrase cv_text
         ∧ Py.count_if (fun bw => Py.contains bw (Py.lower cv_text))
             ["synergy"; "innovative"; "dynamic"; "results-driven";
              "team player"; "hard worker"] < 2
         ∧ 200 ≤ length (Py.split cv_text) ≤ 1000
         ∧ mentions (Py.lower cv_text)
             ["skills"; "technical skills"; "competencies"; "expertise"]
           = true
         ∧ mentions (Py.lower cv_text)
             ["experience"; "work history"; "employment";
              "professional experience"] = true).
Proof.
  destruct (detect_cv_issues_total cv_text) as [issues Hissues].
  exists issues. split; [done|].
  assert (Hempty : issues = [] ↔ ∀ x, x ∉ issues).
  { split; [intros -> x; apply not_elem_of_nil|].
    destruct issues as [|y issues]; [done|]. intros H. destruct (H y). left. }
  rewrite Hempty. setoid_rewrite (detect_cv_issues_elem _ _ _ Hissues).
  assert (Hsearch : Re.search metrics_pattern cv_text = true
                    ↔ contains_regex_metric_phrase cv_text).
  { rewrite search_spec. unfold contains_regex_metric_phrase, occurs.
    by setoid_rewrite Matches_metrics_pattern. }
  rewrite <- Hsearch.
  generalize (mentions (Py.lower cv_text)
                ["seeking"; "looking for"; "opportunity"]).
  generalize (mentions (Py.lower cv_text)
                ["specific"; "specialize"; "expert in"]).
  generalize (mentions (Py.lower cv_text)
                ["skills"; "technical skills"; "competencies"; "expertise"]).
  generalize (mentions (Py.lower cv_text)
                ["experience"; "work history"; "employment";
                 "professional experience"]).
  generalize (Re.search metrics_pattern cv_text).
  generalize (Py.count_if (fun bw => Py.contains bw (Py.lower cv_text))
                ["synergy"; "innovative"; "dynamic"; "results-driven";
                 "team player"; "hard worker"]).
  generalize (length (Py.split cv_text)).
  intros wc n found has_experience has_skills specific seeking. split.
  - intros H.
    assert (H1 : ¬ (seeking = true ∧ specific = false)).
    { intros ?. apply (H "vague_objective"). by left. }
    assert (H2 : found ≠ false).
    { intros ?. apply (H "no_metrics"). right; left. by split. }
    assert (H3 : ¬ 2 ≤ n).
    { intros ?. apply (H "buzzwords"). do 2 right; left. by split. }
    assert (H4 : ¬ (wc < 200 ∨ 1000 < wc)).
    { intros ?. apply (H "length"). do 3 right; left. by split. }
    assert (H5 : ¬ (has_skills = false ∨ has_experience = false)).
    { intros ?. apply (H "formatting"). do 4 right. by split. }
    clear H.
    split; [intros ->; destruct specific; [done|by destruct H1]|].
    split; [by destruct found|]. split; [lia|]. split; [lia|].
    split; [destruct has_skills|destruct has_experience]; tauto.
  - intros (Hv & Hm & Hb & [Hlo Hhi] & Hs & He) x.
    intros [(_ & Hseek & Hspec)|[[_ Hf]|[[_ Hn]|[[_ Hw]|[_ [Hk|Hk]]]]]].
    + rewrite (Hv Hseek) in Hspec. discriminate.
    + rewrite Hm in Hf. discriminate.
    + lia.
    + lia.
    + rewrite Hs in Hk. discriminate.
    + rewrite He in Hk. discriminate.
Qed.

(** ** Further properties of [calculate_section_coverage] *)

Lemma count_if_le_length {A} (p : A -> bool) (l : list A) :
  Py.count_if p l ≤ length l.
Proof.
  unfold Py.count_if. induction l as [|x l IH]; [done|].
  cbn [List.filter]. destruct (p x); cbn [length]; lia.
Qed.

Lemma count_if_mono {A} (p q : A -> bool) (l : list A) :
  (∀ x, x ∈ l -> p x = true -> q x = true) ->
  Py.count_if p l ≤ Py.count_if q l.
Proof.
  unfold Py.count_if. induction l as [|x l IH]; intros Hpq; [done|].
  cbn [List.filter].
  assert (IH' : length (List.filter p l) ≤ length (List.filter q l)).
  { apply IH. intros y Hy. apply Hpq. by right. }
  destruct (p x) eqn:Hp.
  - rewrite (Hpq x) by (done || left). cbn [length]. lia.
  - destruct (q x); cbn [length]; lia.
Qed.

Lemma count_if_and_eq {A} (p q : A -> bool) (l : list A) :
  Py.count_if (λ x, p x && q x) l = Py.count_if p l
  ↔ ∀ x, x ∈ l -> p x = true -> q x = true.
Proof.
  induction l as [|x l IH].
  - split; [|done]. intros _ y Hy. by apply elem_of_nil in Hy.
  - assert (Hle : Py.count_if (λ x, p x && q x) l ≤ Py.count_if p l).
    { apply count_if_mono. intros y _ [Hy _]%andb_true_iff. done. }
    unfold Py.count_if in *. cbn [List.filter].
    destruct (p x) eqn:Hp, (q x) eqn:Hq; cbn [andb length].
    + rewrite Nat.succ_inj_wd, IH. split.
      * intros H y [->|Hy]%elem_of_cons; [done|by apply H].
      * intros H y Hy. apply H. by right.
    + split; [lia|]. intros H. rewrite (H x) in Hq by (done || left). done.
    + rewrite IH. split.
      * intros H y [->|Hy]%elem_of_cons; [by rewrite Hp|by apply H].
      * intros H y Hy. apply H. by right.
    + rewrite IH. split.
      * intros H y [->|Hy]%elem_of_cons; [by rewrite Hp|by apply H].
      * intros H y Hy. apply H. by right.
Qed.

Lemma getitem_dict_map_inv {V W} (h : V -> W) (table : Py.dict V)
    (k : string) (w : W) :
  Py.getitem (dict_map h table) k = Ok w -> ∃ v, (k, v) ∈ table ∧ w = h v.
Proof.
  unfold Py.getitem, dict_map.
  induction table as [|[k' v'] table IH]; [done|].
  rewrite fmap_cons. cbn [List.find fst snd].
  destruct (String.eqb_spec k' k) as [->|Hne].
  - intros [= <-]. exists v'. split; [left|done].
  - intros H. destruct (IH H) as (v & Hin & ->). exists v. split; [by right|done].
Qed.

Lemma ratio_or_0_eq_1 (a b : nat) : ratio_or_0 a b = 1%Qc ↔ 0 < b ∧ a = b.
Proof.
  unfold ratio_or_0. destruct (Nat.ltb_spec 0 b) as [Hb|Hb].
  - assert (Hne : Py.num b ≠ 0%Qc) by (rewrite num_0_iff; lia).
    split.
    + intros H. split; [done|].
      assert (Hab : Py.num a = Py.num b).
      { rewrite <- (Qcmult_1_l (Py.num b)), <- H. unfold Qcdiv.
        rewrite <- Qcmult_assoc, (Qcmult_comm (/ Py.num b)),
          Qcmult_inv_r, Qcmult_1_r; done. }
      unfold Py.num in Hab. apply Z2Qc_inj in Hab. lia.
    + intros [_ ->]. by apply Qc_div_self.
  - split; [|lia]. intros H. by vm_compute in H.
Qed.

Lemma calculate_section_coverage_ratio (cv_text critique : string) :
  let present := mentions (Py.lower cv_text) in
  let covered := mentions (Py.lower critique) in
  let total := Py.count_if (λ kv, present kv.2) EXPECTED_CV_ELEMENTS in
  let both :=
    Py.count_if (λ kv, present kv.2 && covered kv.2) EXPECTED_CV_ELEMENTS in
  calculate_section_coverage cv_text critique
  = Ok {| Coverage.total_sections_in_cv := total;
          Coverage.sections_addressed_in_critique := both;
          Coverage.coverage_rate := ratio_or_0 both total;
          Coverage.sections_present := dict_map present EXPECTED_CV_ELEMENTS;
          Coverage.sections_covered := dict_map covered EXPECTED_CV_ELEMENTS |}.
Proof. apply calculate_section_coverage_eq. Qed.

(** X14: the covered sections are among the present ones, at most 7 of
    them, the rate lies between 0 and 1, and both per-section dicts carry
    the seven section names in the order of the table. *)
Theorem X14_coverage_within_bounds (cv_text critique : string) :
  ∃ c, calculate_section_coverage cv_text critique = Ok c
    ∧ Coverage.sections_addressed_in_critique c
      ≤ Coverage.total_sections_in_cv c
    ∧ Coverage.total_sections_in_cv c ≤ 7
    ∧ (0 ≤ Coverage.coverage_rate c)%Qc ∧ (Coverage.coverage_rate c ≤ 1)%Qc
    ∧ (Coverage.sections_present c).*1 = EXPECTED_CV_ELEMENTS.*1
    ∧ (Coverage.sections_covered c).*1 = EXPECTED_CV_ELEMENTS.*1.
Proof.
  eexists. split; [apply calculate_section_coverage_ratio|].
  cbn [Coverage.total_sections_in_cv Coverage.sections_addressed_in_critique
       Coverage.coverage_rate Coverage.sections_present
       Coverage.sections_covered].
  assert (Hle : Py.count_if
                  (λ kv, mentions (Py.lower cv_text) kv.2
                         && mentions (Py.lower critique) kv.2)
                  EXPECTED_CV_ELEMENTS
                ≤ Py.count_if (λ kv, mentions (Py.lower cv_text) kv.2)
                    EXPECTED_CV_ELEMENTS).
  { apply count_if_mono. intros kv _ [H _]%andb_true_iff. done. }
  split; [done|].
  split; [apply (count_if_le_length _ EXPECTED_CV_ELEMENTS)|].
  split; [apply ratio_or_0_nonneg|]. split; [by apply ratio_or_0_le_1|].
  by rewrite !dict_map_keys.
Qed.

(** X15: the coverage rate is 1 exactly when the document has at least
    one section and every section marked present in the document is
    marked covered in the critique. *)
Theorem X15_full_coverage_iff (cv_text critique : string) :
  ∃ c, calculate_section_coverage cv_text critique = Ok c
    ∧ (Coverage.coverage_rate c = 1%Qc
       ↔ 0 < Coverage.total_sections_in_cv c
         ∧ ∀ section,
             Py.getitem (Coverage.sections_present c) section = Ok true ->
             Py.getitem (Coverage.sections_covered c) section = Ok true).
Proof.
  eexists. split; [apply calculate_section_coverage_ratio|].
  cbn [Coverage.total_sections_in_cv Coverage.coverage_rate
       Coverage.sections_present Coverage.sections_covered].
  rewrite ratio_or_0_eq_1, (count_if_and_eq (λ kv, mentions (Py.lower cv_text) kv.2)
    (λ kv, mentions (Py.lower critique) kv.2)).
  apply and_iff_compat_l. split.
  - intros H section Hp.
    apply getitem_dict_map_inv in Hp as (kws & Hin & Hkws).
    rewrite (getitem_dict_map _ _ _ kws EXPECTED_CV_ELEMENTS_NoDup Hin).
    f_equal. by apply (H (section, kws)).
  - intros H [section kws] Hin Hp.
    assert (Hc := H section).
    rewrite !(getitem_dict_map _ _ _ kws EXPECTED_CV_ELEMENTS_NoDup Hin) in Hc.
    cbn [snd] in Hp. rewrite Hp in Hc.
    specialize (Hc eq_refl). by apply Ok_inj in Hc.
Qed.

(** X16: for the empty document no section is present: every entry of
    sections_present is False, both counts are 0 and the rate is 0,
    whatever the critique. *)
Theorem X16_empty_document_has_zero_coverage (critique : string) :
  ∃ c, calculate_section_coverage "" critique = Ok c
    ∧ Coverage.total_sections_in_cv c = 0
    ∧ Coverage.sections_addressed_in_critique c = 0
    ∧ Coverage.coverage_rate c = 0%Qc
    ∧ ∀ section b,
        Py.getitem (Coverage.sections_present c) section = Ok b -> b = false.
Proof.
  eexists. split; [apply calculate_section_coverage_eq|].
  cbn [Coverage.total_sections_in_cv Coverage.sections_addressed_in_critique
       Coverage.coverage_rate Coverage.sections_present].
  assert (Hnone : ∀ kv, kv ∈ EXPECTED_CV_ELEMENTS ->
                        mentions (Py.lower "") kv.2 = false).
  { intros kv Hin. revert kv Hin. apply Forall_forall.
    repeat constructor. }
  assert (Htotal : Py.count_if (λ kv, mentions (Py.lower "") kv.2)
                     EXPECTED_CV_ELEMENTS = 0) by (by vm_compute).
  assert (Hboth : Py.count_if
                    (λ kv, mentions (Py.lower "") kv.2
                           && mentions (Py.lower critique) kv.2)
                    EXPECTED_CV_ELEMENTS = 0).
  { apply Nat.le_0_r. rewrite <- Htotal. apply count_if_mono.
    intros kv _ [H _]%andb_true_iff. done. }
  rewrite Htotal, Hboth. split; [done|]. split; [done|]. split; [done|].
  intros section b Hb.
  apply getitem_dict_map_inv in Hb as (kws & Hin & ->).
  by apply (Hnone (section, kws)).
Qed.

(** X17: text appended to a critique leaves the present sections as they
    are and can only add covered ones: the count of addressed sections
    and the coverage rate do not decrease. *)
Theorem X17_appending_to_critique_never_lowers_coverage
    (cv_text critique more : string) :
  ∃ c1 c2,
    calculate_section_coverage cv_text critique = Ok c1
    ∧ calculate_section_coverage cv_text (critique +:+ more) = Ok c2
    ∧ Coverage.sections_present c1 = Coverage.sections_present c2
    ∧ Coverage.total_sections_in_cv c1 = Coverage.total_sections_in_cv c2
    ∧ Coverage.sections_addressed_in_critique c1
      ≤ Coverage.sections_addressed_in_critique c2
    ∧ (Coverage.coverage_rate c1 ≤ Coverage.coverage_rate c2)%Qc.
Proof.
  eexists. eexists.
  split; [apply calculate_section_coverage_ratio|].
  split; [apply calculate_section_coverage_ratio|].
  cbn [Coverage.total_sections_in_cv Coverage.sections_addressed_in_critique
       Coverage.coverage_rate Coverage.sections_present].
  split; [done|]. split; [done|].
  assert (Hle : Py.count_if
                  (λ kv, mentions (Py.lower cv_text) kv.2
                         && mentions (Py.lower critique) kv.2)
                  EXPECTED_CV_ELEMENTS
                ≤ Py.count_if
                    (λ kv, mentions (Py.lower cv_text) kv.2
                           && mentions (Py.lower (critique +:+ more)) kv.2)
                    EXPECTED_CV_ELEMENTS).
  { apply count_if_mono. intros kv _ [Hp Hc]%andb_true_iff.
    rewrite Hp, lower_app. by rewrite mentions_app_l. }
  split; [done|]. by apply (ratio_or_0_mono _ _ _ Hle).
Qed.

(** X18: the detector and the coverage scorer agree on the two sections
    they share: formatting is absent from the detector's list exactly
    when sections_present marks both skills and experience True. *)
Theorem X18_formatting_agrees_with_sections_present
    (cv_text critique : string) :
  ∃ issues c, _detect_cv_issues cv_text = Ok issues
    ∧ calculate_section_coverage cv_text critique = Ok c
    ∧ ("formatting" ∉ issues
       ↔ Py.getitem (Coverage.sections_present c) "skills" = Ok true
         ∧ Py.getitem (Coverage.sections_present c) "experience" = Ok true).
Proof.
  destruct (detect_cv_issues_total cv_text) as [issues Hissues].
  exists issues. eexists. split; [done|].
  split; [apply calculate_section_coverage_eq|].
  cbn [Coverage.sections_present].
  rewrite (getitem_dict_map _ _ "skills"
             ["skills"; "technical skills"; "competencies"; "expertise"]
             EXPECTED_CV_ELEMENTS_NoDup) by (right; left).
  rewrite (getitem_dict_map _ _ "experience"
             ["experience"; "work history"; "employment";
              "professional experience"]
             EXPECTED_CV_ELEMENTS_NoDup) by (do 3 right; left).
  rewrite (detect_cv_issues_elem _ _ _ Hissues).
  destruct (mentions (Py.lower cv_text)
              ["skills"; "technical skills"; "competencies"; "expertise"]),
    (mentions (Py.lower cv_text)
       ["experience"; "work history"; "employment";
        "professional experience"]).
  - split; [done|]. intros _ [[[=] _]|[[[=] _]|[[[=] _]|[[[=] _]|[_ [[=]|[=]]]]]]].
  - split; [|by intros [_ [=]]]. intros H. destruct H. do 4 right. by split; [|right].
  - split; [|by intros [[=] _]]. intros H. destruct H. do 4 right. by split; [|left].
  - split; [|by intros [[=] _]]. intros H. destruct H. do 4 right. by split; [|left].
Qed.

(** ** Further properties of [evaluate_all_models] and of the selection *)

Lemma evaluate_one_eq (cv_text : string)
    (ground_truth_issues : option (list string))
    (model_name critique : string) (G : list string) :
  effective_ground_truth cv_text ground_truth_issues = Ok G ->
  ∃ c d,
    calculate_section_coverage cv_text critique = Ok c
    ∧ calculate_issue_detection_metrics cv_text critique
        ground_truth_issues = Ok d
    ∧ Detection.true_positives d + Detection.false_negatives d
      = size (Py.set G)
    ∧ evaluate_one cv_text ground_truth_issues (model_name, critique)
      = Ok {| EvalRow.model := model_name;
              EvalRow.coverage_rate := Coverage.coverage_rate c;
              EvalRow.sections_addressed :=
                Coverage.sections_addressed_in_critique c;
              EvalRow.precision := Detection.precision d;
              EvalRow.recall := Detection.recall d;
              EvalRow.f1_score := Detection.f1_score d;
              EvalRow.true_positives := Detection.true_positives d;
              EvalRow.false_positives := Detection.false_positives d;
              EvalRow.false_negatives := Detection.false_negatives d;
              EvalRow.critique_length := length (Py.split critique) |}.
Proof.
  intros HG. eexists. eexists.
  split; [apply calculate_section_coverage_eq|].
  split; [by apply calculate_issue_detection_metrics_eq|].
  cbn [Detection.true_positives Detection.false_negatives].
  split; [apply size_inter_diff|].
  unfold evaluate_one. rewrite calculate_section_coverage_eq.
  cbn [mbind result_bind].
  rewrite (calculate_issue_detection_metrics_eq _ _ _ G HG).
  reflexivity.
Qed.

Lemma evaluate_all_models_app (cv_text : string)
    (batch1 batch2 : Py.dict string)
    (ground_truth_issues : option (list string)) (df1 df2 : list EvalRow.t) :
  evaluate_all_models cv_text batch1 ground_truth_issues = Ok df1 ->
  evaluate_all_models cv_text batch2 ground_truth_issues = Ok df2 ->
  evaluate_all_models cv_text (batch1 ++ batch2) ground_truth_issues
  = Ok (df1 ++ df2).
Proof.
  revert df1. induction batch1 as [|item batch1 IH]; intros df1 H1 H2.
  - apply Ok_inj in H1 as <-. done.
  - cbn [evaluate_all_models app] in *.
    destruct (evaluate_one cv_text ground_truth_issues item) as [row|e];
      [|discriminate].
    cbn [mbind result_bind] in *.
    destruct (evaluate_all_models cv_text batch1 ground_truth_issues)
      as [rows|e]; [|discriminate].
    cbn [mbind result_bind] in *. apply Ok_inj in H1 as <-.
    rewrite (IH rows eq_refl H2). reflexivity.
Qed.

Lemma getitem_NoDup {V} (d : Py.dict V) (k : string) (v : V) :
  NoDup d.*1 -> (k, v) ∈ d -> Py.getitem d k = Ok v.
Proof.
  unfold Py.getitem. induction d as [|[k' v'] d IH]; intros Hnd Hin.
  - by apply elem_of_nil in Hin.
  - rewrite fmap_cons in Hnd. cbn [fst] in Hnd.
    apply NoDup_cons in Hnd as [Hk' Hnd]. cbn [List.find fst snd].
    destruct (String.eqb_spec k' k) as [->|Hne].
    + apply elem_of_cons in Hin as [[= <-]|Hin]; [done|].
      destruct Hk'. apply list_elem_of_fmap. by exists (k, v).
    + apply elem_of_cons in Hin as [[= <- <-]|Hin]; [done|]. by apply IH.
Qed.

(** X19: each row of the table depends on its own critique only: the
    table of a batch made of two parts is the table of the first part
    followed by the table of the second, with one row per critique and
    the labels in insertion order. *)
Theorem X19_table_is_row_by_row (cv_text : string)
    (batch1 batch2 : Py.dict string)
    (ground_truth_issues : option (list string)) :
  ∃ df1 df2,
    evaluate_all_models cv_text batch1 ground_truth_issues = Ok df1
    ∧ evaluate_all_models cv_text batch2 ground_truth_issues = Ok df2
    ∧ evaluate_all_models cv_text (batch1 ++ batch2) ground_truth_issues
      = Ok (df1 ++ df2)
    ∧ length df1 = length batch1
    ∧ EvalRow.model <$> df1 = batch1.*1.
Proof.
  destruct (evaluate_all_models_total cv_text batch1 ground_truth_issues)
    as (df1 & Hdf1 & Hrows1).
  destruct (evaluate_all_models_total cv_text batch2 ground_truth_issues)
    as (df2 & Hdf2 & _).
  exists df1, df2. split; [done|]. split; [done|].
  split; [by apply evaluate_all_models_app|].
  split; [symmetry; by eapply Forall2_length|].
  clear Hdf1. induction Hrows1 as [|item row batch df [Hmodel _] _ IH];
    [done|].
  rewrite !fmap_cons. by rewrite Hmodel, IH.
Qed.

(** X20: all rows of a table are scored against the same ground truth:
    TP + FN is the same number in every row, the size of the ground-truth
    set. *)
Theorem X20_rows_share_ground_truth_size (cv_text : string)
    (critiques : Py.dict string)
    (ground_truth_issues : option (list string)) :
  ∃ df G,
    evaluate_all_models cv_text critiques ground_truth_issues = Ok df
    ∧ effective_ground_truth cv_text ground_truth_issues = Ok G
    ∧ ∀ row, row ∈ df ->
        EvalRow.true_positives row + EvalRow.false_negatives row
        = size (Py.set G).
Proof.
  destruct (effective_ground_truth_total cv_text ground_truth_issues)
    as [G HG].
  induction critiques as [|[model_name critique] critiques
                           (df & G' & Hdf & HG' & Hrows)].
  - exists [], G. split; [done|]. split; [done|].
    intros row Hrow. by apply elem_of_nil in Hrow.
  - destruct (evaluate_one_eq cv_text ground_truth_issues model_name
                critique G HG) as (c & d & _ & _ & Hsize & Hrow).
    eexists. exists G. split.
    + cbn [evaluate_all_models]. rewrite Hrow. cbn [mbind result_bind].
      rewrite Hdf. reflexivity.
    + split; [done|]. intros row [->|Hin]%elem_of_cons.
      * exact Hsize.
      * rewrite HG in HG'. apply Ok_inj in HG' as <-. by apply Hrows.
Qed.

(** X21: the selection fails on the table of an empty batch only, and
    there with the KeyError of the lookup of the F1 column, as the table
    built from no rows has no columns; the ValueError of idxmax on an
    empty column is never reached.  On any other table the selection
    returns one of the rows. *)
Theorem X21_selection_fails_only_on_empty_table (df : list EvalRow.t) :
  (df = [] -> best_model_row df = Raise KeyError)
  ∧ (df ≠ [] -> ∃ row, best_model_row df = Ok row ∧ row ∈ df)
  ∧ ∀ e, best_model_row df = Raise e -> df = [] ∧ e = KeyError.
Proof.
  split; [by intros ->|].
  assert (Hok : df ≠ [] -> ∃ row, best_model_row df = Ok row ∧ row ∈ df).
  { intros Hne. destruct (best_model_row_spec df Hne)
      as (i & best & Hbest & Hi & _).
    exists best. split; [done|]. by eapply list_elem_of_lookup_2. }
  split; [done|]. intros e He. destruct df as [|row df].
  - by injection He as <-.
  - destruct Hok as (best & Hbest & _); [done|]. congruence.
Qed.

(** X22: with distinct labels, looking up the critique of the selected
    model by its label succeeds, and scoring it again gives the
    precision, recall and F1 of the selected row, an F1 no row of the
    table exceeds. *)
Theorem X22_best_model_can_be_rescored (cv_text : string)
    (critiques : Py.dict string)
    (ground_truth_issues : option (list string)) :
  critiques ≠ [] ->
  NoDup critiques.*1 ->
  ∃ df best critique d,
    evaluate_all_models cv_text critiques ground_truth_issues = Ok df
    ∧ best_model_row df = Ok best
    ∧ Py.getitem critiques (EvalRow.model best) = Ok critique
    ∧ calculate_issue_detection_metrics cv_text critique
        ground_truth_issues = Ok d
    ∧ Detection.precision d = EvalRow.precision best
    ∧ Detection.recall d = EvalRow.recall best
    ∧ Detection.f1_score d = EvalRow.f1_score best
    ∧ ∀ row, row ∈ df -> (EvalRow.f1_score row ≤ Detection.f1_score d)%Qc.
Proof.
  intros Hne Hnd.
  destruct (evaluate_all_models_total cv_text critiques ground_truth_issues)
    as (df & Hdf & Hrows).
  destruct (best_model_row_spec df) as (i & best & Hbest & Hi & Hmax & _).
  { intros ->. by apply Forall2_nil_inv_r in Hrows. }
  destruct (Forall2_lookup_r _ _ _ _ _ Hrows Hi)
    as ([model_name critique] & Hitem & Hmodel & d & Hd & HP & HR & HF).
  cbn [fst snd] in *.
  exists df, best, critique, d. split; [done|]. split; [done|].
  split.
  { rewrite Hmodel. apply getitem_NoDup; [done|].
    by eapply list_elem_of_lookup_2. }
  split; [done|]. split; [done|]. split; [done|]. split; [done|].
  intros row [j Hj]%list_elem_of_lookup. rewrite <- HF. by eapply Hmax.
Qed.

Lemma X22_best_model_can_be_rescored_witness :
  ∃ df best critique d,
    evaluate_all_models sample_cv mock_critiques None = Ok df
    ∧ best_model_row df = Ok best
    ∧ Py.getitem mock_critiques (EvalRow.model best) = Ok critique
    ∧ calculate_issue_detection_metrics sample_cv critique None = Ok d
    ∧ Detection.precision d = EvalRow.precision best
    ∧ Detection.recall d = EvalRow.recall best
    ∧ Detection.f1_score d = EvalRow.f1_score best
    ∧ ∀ row, row ∈ df -> (EvalRow.f1_score row ≤ Detection.f1_score d)%Qc.
Proof.
  apply (X22_best_model_can_be_rescored sample_cv mock_critiques None).
  - discriminate.
  - apply (bool_decide_unpack _). vm_compute. exact I.
Defined.

(** ** Slices, previews and the masked key *)

Lemma str_length_app (a b : string) :
  String.length (a +:+ b) = String.length a + String.length b.
Proof.
  induction a as [|c a IH]; [done|].
  rewrite str_app_cons. cbn [String.length]. by rewrite IH.
Qed.

Lemma upto_from (n : nat) (s : string) :
  Slice.upto n s +:+ Slice.from n s = s.
Proof.
  revert s. induction n as [|n IH]; intros [|c s]; try done.
  cbn [Slice.upto Slice.from]. by rewrite str_app_cons, IH.
Qed.

Lemma length_upto (n : nat) (s : string) :
  String.length (Slice.upto n s) = n `min` String.length s.
Proof.
  revert s. induction n as [|n IH]; intros [|c s]; try done.
  cbn [Slice.upto String.length]. by rewrite IH.
Qed.

Lemma length_from (n : nat) (s : string) :
  String.length (Slice.from n s) = String.length s - n.
Proof.
  revert s. induction n as [|n IH]; intros [|c s]; try done.
  cbn [Slice.from String.length]. by rewrite IH.
Qed.

Lemma upto_all (n : nat) (s : string) :
  String.length s ≤ n -> Slice.upto n s = s.
Proof.
  revert s. induction n as [|n IH]; intros [|c s] Hlen; try done.
  - cbn in Hlen. lia.
  - cbn [Slice.upto]. rewrite IH; [done|]. cbn in Hlen. lia.
Qed.

Lemma from_all (n : nat) (s : string) :
  String.length s ≤ n -> Slice.from n s = "".
Proof.
  revert s. induction n as [|n IH]; intros [|c s] Hlen; try done.
  - cbn in Hlen. lia.
  - cbn [Slice.from]. apply IH. cbn in Hlen. lia.
Qed.

Lemma from_from (a b : nat) (s : string) :
  Slice.from a (Slice.from b s) = Slice.from (b + a) s.
Proof.
  revert s. induction b as [|b IH]; intros s; [done|].
  destruct s as [|c s].
  - cbn [Slice.from Nat.add]. by destruct a.
  - cbn [Slice.from Nat.add]. apply IH.
Qed.

(** X23: a preview is the value itself when it has at most 50
    characters, and otherwise its first 50 characters followed by three
    dots, 53 characters in all; a critique preview is the first 200
    characters of the critique, or all of it when it is shorter. *)
Theorem X23_previews_are_bounded_prefixes (value critique : string) :
  String.length (preview value) ≤ 53
  ∧ (String.length value ≤ 50 -> preview value = value)
  ∧ (50 < String.length value ->
     ∃ first rest, value = first +:+ rest ∧ String.length first = 50
       ∧ preview value = first +:+ "...")
  ∧ String.length (critique_preview critique)
    = 200 `min` String.length critique
  ∧ ∃ rest, critique = critique_preview critique +:+ rest.
Proof.
  unfold preview, critique_preview.
  split; [|split; [|split; [|split]]].
  - destruct (Nat.ltb_spec 50 (String.length value)); [|lia].
    rewrite str_length_app, length_upto. cbn [String.length]. lia.
  - intros Hle. by destruct (Nat.ltb_spec 50 (String.length value)); [lia|].
  - intros Hlt. apply Nat.ltb_lt in Hlt as Hb. rewrite Hb.
    exists (Slice.upto 50 value), (Slice.from 50 value).
    split; [by rewrite upto_from|]. split; [|done].
    rewrite length_upto. lia.
  - apply length_upto.
  - exists (Slice.from 200 critique). by rewrite upto_from.
Qed.

(** X24: the masked key has at most 18 characters; of a key of 15
    characters or more it hides all but the first 10 and the last 5; of a
    key of at most 15 characters it hides nothing: the key is the part
    before the dots followed by an end of the part after them, and a key
    of at most 10 characters stands whole before the dots. *)
Theorem X24_masked_key_reveals_short_keys (key : string) :
  let shown_first := Slice.upto 10 key in
  let shown_last := Slice.last 5 key in
  masked_key key = shown_first +:+ "..." +:+ shown_last
  ∧ String.length (masked_key key) ≤ 18
  ∧ (15 ≤ String.length key ->
     ∃ hidden, key = shown_first +:+ hidden +:+ shown_last
       ∧ String.length hidden = String.length key - 15)
  ∧ (String.length key ≤ 15 ->
     ∃ n, key = shown_first +:+ Slice.from n shown_last)
  ∧ (String.length key ≤ 10 -> shown_first = key).
Proof.
  intros shown_first shown_last. unfold shown_first, shown_last, Slice.last.
  split; [done|]. split; [|split; [|split]].
  - unfold masked_key, Slice.last.
    rewrite !str_length_app, length_upto, length_from. cbn [String.length].
    lia.
  - intros Hlen.
    exists (Slice.upto (String.length key - 15) (Slice.from 10 key)). split.
    + rewrite <- (upto_from 10 key) at 1. f_equal.
      rewrite <- (upto_from (String.length key - 15) (Slice.from 10 key)) at 1.
      f_equal. rewrite from_from. f_equal. lia.
    + rewrite length_upto, length_from. lia.
  - intros Hlen.
    exists (10 `min` String.length key - (String.length key - 5)).
    rewrite from_from. rewrite <- (upto_from 10 key) at 1. f_equal.
    destruct (decide (String.length key ≤ 10)) as [Hshort|Hlong].
    + rewrite !from_all; [done|lia..].
    + f_equal. lia.
  - apply upto_all.
Qed.

(** ** Text extraction *)

Lemma split_go_space (a b : string) (c : ascii) (word : string) :
  Py.isspace c = true ->
  Py.split_go (a +:+ String c b) word
  = Py.split_go a word ++ Py.split_go b "".
Proof.
  intros Hc. revert word. induction a as [|d a IH]; intros word.
  - rewrite str_app_nil_l. cbn [Py.split_go]. rewrite Hc. by destruct word.
  - rewrite str_app_cons. cbn [Py.split_go].
    destruct (Py.isspace d); [|apply IH].
    destruct word; by rewrite IH.
Qed.

Lemma split_page_separator (a b : string) :
  Py.split (a +:+ Extract.page_separator +:+ b) = Py.split a ++ Py.split b.
Proof.
  unfold Py.split, Extract.page_separator.
  rewrite !str_app_cons, str_app_nil_l, split_go_space by done.
  f_equal.
Qed.

Lemma split_join (texts : list string) :
  Py.split (Extract.join Extract.page_separator texts)
  = List.concat (Py.split <$> texts).
Proof.
  induction texts as [|t texts IH]; [done|].
  rewrite fmap_cons. cbn [List.concat]. rewrite <- IH.
  destruct texts as [|t' texts].
  - cbn [Extract.join]. by rewrite app_nil_r.
  - change (Extract.join Extract.page_separator (t :: t' :: texts))
      with (t +:+ Extract.page_separator
              +:+ Extract.join Extract.page_separator (t' :: texts)).
    apply split_page_separator.
Qed.

Lemma collect_returned (page_texts : list (option string))
    (text : list string) :
  Extract.collect (Extract.Returned <$> page_texts) text
  = Extract.Returned
      (text ++ (default "" <$> List.filter Extract.truthy page_texts)).
Proof.
  revert text. induction page_texts as [|p ps IH]; intros text.
  - cbn. by rewrite app_nil_r.
  - rewrite fmap_cons. cbn [Extract.collect List.filter]. rewrite IH.
    destruct (Extract.truthy p); [|done].
    rewrite fmap_cons. by rewrite <- app_assoc.
Qed.

Lemma collect_raised (pages : list Extract.page) (text : list string) :
  (∃ e, Extract.collect pages text = Extract.Raised e)
  ↔ ∃ e, Extract.Raised e ∈ pages.
Proof.
  revert text. induction pages as [|[p|e] pages IH]; intros text;
    cbn [Extract.collect].
  - split; intros [e H]; [done|]. by apply elem_of_nil in H.
  - rewrite IH. split; intros [e H]; exists e.
    + by right.
    + apply elem_of_cons in H as [[=]|H]. done.
  - split; intros _; exists e; [left|done].
Qed.

Lemma split_not_truthy (p : option string) :
  Extract.truthy p = false -> Py.split (default "" p) = [].
Proof. by destruct p as [[|c s]|]. Qed.

Lemma concat_split_filter (page_texts : list (option string)) :
  List.concat (Py.split <$> (default "" <$> List.filter Extract.truthy
                                              page_texts))
  = List.concat ((λ p, Py.split (default "" p)) <$> page_texts).
Proof.
  induction page_texts as [|p ps IH]; [done|].
  rewrite fmap_cons. cbn [List.filter List.concat].
  destruct (Extract.truthy p) eqn:Hp.
  - rewrite !fmap_cons. cbn [List.concat]. by rewrite IH.
  - by rewrite (split_not_truthy p Hp), IH.
Qed.

Lemma split_go_nonempty (s word : string) :
  word ≠ "" -> Py.split_go s word ≠ [].
Proof.
  revert word. induction s as [|d s IH]; intros word Hword.
  - cbn. by destruct word.
  - cbn [Py.split_go]. destruct (Py.isspace d).
    + by destruct word.
    + apply IH. by destruct word.
Qed.

Lemma split_cons_empty_iff (c : ascii) (s : string) :
  Py.split (String c s) = [] ↔ Py.isspace c = true ∧ Py.split s = [].
Proof.
  unfold Py.split. cbn [Py.split_go]. destruct (Py.isspace c).
  - split; [done|]. by intros [_ ?].
  - split; [|by intros [[=] _]]. intros H.
    by apply split_go_nonempty in H.
Qed.

Lemma lstrip_empty_iff (s : string) :
  Extract.lstrip s = "" ↔ Py.split s = [].
Proof.
  induction s as [|c s IH]; [done|].
  rewrite split_cons_empty_iff. cbn [Extract.lstrip].
  destruct (Py.isspace c); [rewrite IH; tauto|].
  split; [done|]. by intros [[=] _].
Qed.




Lemma extract_with_returned (page_texts : list (option string)) :
  Extract._extract_with (Extract.Returned (Extract.Returned <$> page_texts))
  = Extract.Returned
      (Extract.join Extract.page_separator
         (default "" <$> List.filter Extract.truthy page_texts)).
Proof.
  unfold Extract._extract_with. by rewrite collect_returned, app_nil_l.
Qed.

Lemma join_cons_nonempty (sep : string) (c : ascii) (s : string)
    (parts : list string) :
  Extract.join sep (String c s :: parts) ≠ "".
Proof. destruct parts; cbn [Extract.join]; [done|]. by rewrite str_app_cons. Qed.

(** X25: extraction by one library keeps the words of the pages: when
    every page returns, the words of the extracted text are the words of
    the page texts, page after page; pages without text add nothing, and
    no word is joined or split at a page boundary. *)
Theorem X25_extraction_keeps_the_words (page_texts : list (option string)) :
  ∃ text,
    Extract._extract_with (Extract.Returned (Extract.Returned <$> page_texts))
    = Extract.Returned text
    ∧ Py.split text
      = List.concat ((λ p, Py.split (default "" p)) <$> page_texts)
    ∧ (text = "" ↔ ∀ p, p ∈ page_texts -> Extract.truthy p = false).
Proof.
  eexists. split; [apply extract_with_returned|].
  split; [by rewrite split_join, concat_split_filter|].
  induction page_texts as [|p ps IH].
  - split; [|done]. intros _ p Hp. by apply elem_of_nil in Hp.
  - cbn [List.filter]. destruct (Extract.truthy p) eqn:Hp.
    + rewrite fmap_cons. split.
      * intros Hempty. exfalso.
        destruct p as [[|c s]|]; try discriminate.
        by apply join_cons_nonempty in Hempty.
      * intros H. rewrite (H p) in Hp by left. discriminate.
    + rewrite IH. split.
      * intros H q [->|Hq]%elem_of_cons; [done|by apply H].
      * intros H q Hq. apply H. by right.
Qed.



(** ** Perfect scores *)

Lemma size_difference_0 (X Y : gset string) : size (X ∖ Y) = 0 ↔ X ⊆ Y.
Proof.
  rewrite size_empty_iff. split.
  - intros H x Hx. destruct (decide (x ∈ Y)) as [|Hno]; [done|].
    assert (Hin : x ∈ X ∖ Y) by by apply elem_of_difference.
    rewrite H in Hin. by apply not_elem_of_empty in Hin.
  - set_solver.
Qed.

Lemma set_nonempty_iff (l : list string) : 0 < size (Py.set l) ↔ l ≠ [].
Proof.
  unfold Py.set. destruct l as [|x l].
  - rewrite list_to_set_nil, size_empty. split; [lia|done].
  - split; [done|]. intros _. apply Nat.neq_0_lt_0. intros Hz.
    apply size_empty_iff in Hz. set_solver.
Qed.

(** X28: recall is 1 exactly when the ground truth is not empty and all
    of it is detected; precision is 1 exactly when something is detected
    and all of it is in the ground truth; F1 is 1 exactly when the ground
    truth is not empty and the detected set equals it. *)
Theorem X28_perfect_scores_iff (cv_text critique : string)
    (ground_truth_issues : option (list string)) :
  ∃ d, calculate_issue_detection_metrics cv_text critique
         ground_truth_issues = Ok d
    ∧ let G := Detection.ground_truth_issues d in
      let D := Detection.detected_issues d in
      (Detection.recall d = 1%Qc ↔ G ≠ [] ∧ Py.set G ⊆ Py.set D)
      ∧ (Detection.precision d = 1%Qc ↔ D ≠ [] ∧ Py.set D ⊆ Py.set G)
      ∧ (Detection.f1_score d = 1%Qc ↔ G ≠ [] ∧ Py.set G = Py.set D).
Proof.
  destruct (effective_ground_truth_total cv_text ground_truth_issues)
    as [G HG].
  eexists. split; [by apply calculate_issue_detection_metrics_eq|].
  cbn [Detection.precision Detection.recall Detection.f1_score
       Detection.ground_truth_issues Detection.detected_issues].
  rewrite harmonic_of_ratios, !ratio_or_0_eq_1.
  set (D := detect_in_critique (Py.lower critique)).
  assert (HsG := size_inter_diff (Py.set G) (Py.set D)).
  assert (HsD := size_inter_diff (Py.set D) (Py.set G)).
  rewrite (comm_L (∩)) in HsD.
  assert (HnG := set_nonempty_iff G). assert (HnD := set_nonempty_iff D).
  assert (HfN := size_difference_0 (Py.set G) (Py.set D)).
  assert (HfP := size_difference_0 (Py.set D) (Py.set G)).
  split; [|split].
  - rewrite <- HnG, <- HfN. lia.
  - rewrite <- HnD, <- HfP. lia.
  - rewrite <- HnG. split.
    + intros [Hpos Heq]. split; [lia|].
      apply set_eq. intros x. split; [apply HfN|apply HfP]; lia.
    + intros [Hpos Heq].
      assert (H1 : size (Py.set G ∖ Py.set D) = 0)
        by (apply HfN; by rewrite Heq).
      assert (H2 : size (Py.set D ∖ Py.set G) = 0)
        by (apply HfP; by rewrite Heq).
      lia.
Qed.
